(** * SAM hive parser: a shallow embedding of [samhiveparser.py]

    The script decodes two registry value blobs per user account: [V]
    (the account name, addressed through a length/offset pair in the blob's
    preamble) and [F] (last-logon FILETIME and account flags at fixed
    offsets), and prints one block of text per account subkey.

    Python values are modelled as follows: [int] is [Z], [bytes] is a list
    of [byte], [str] is the list of its Unicode code points, a raised
    exception is the [Raise] case of [result], and standard output is the
    list of the strings handed to [print], threaded through the loop. *)

From Stdlib Require Import String Ascii DecimalString.
From Stdlib Require Import Strings.Byte.
From Stdlib Require Import ZArith List Bool Lia.
Import ListNotations.
Open Scope Z_scope.

(** ** Python values and exceptions *)

Definition bytes := list byte.

(** A Python [str]: the sequence of its code points. *)
Definition str := list Z.

(** An ASCII literal of the script, as a [str]. *)
Definition lit (s : string) : str :=
  map (fun a => Z.of_N (N_of_ascii a)) (list_ascii_of_string s).

(** The exceptions that can be raised under the script's [try] blocks.
    [RegistryException] stands for whatever the hive-access library raises;
    only its text is ever used. *)
Inductive exn : Type :=
| struct_error (size : Z)
| OverflowError (msg : str)
| RegistryException (msg : str).

Inductive result (A : Type) : Type :=
| Ok (a : A)
| Raise (e : exn).
Arguments Ok {A} a.
Arguments Raise {A} e.

Definition bind {A B : Type} (r : result A) (k : A -> result B) : result B :=
  match r with
  | Ok a => k a
  | Raise e => Raise e
  end.

Notation "x <- e ;; k" := (bind e (fun x => k))
  (at level 61, e at next level, right associativity).

(** Decimal text of an integer, as [str(n)] prints it. *)
Definition decimal (n : Z) : str :=
  (if n <? 0 then lit "-" else [])
  ++ lit (NilEmpty.string_of_uint (N.to_uint (Z.to_N (Z.abs n)))).

(** [str(e)] for an exception [e], the text an f-string interpolates. *)
Definition exn_str (e : exn) : str :=
  match e with
  | struct_error size =>
      lit "unpack requires a buffer of " ++ decimal size ++ lit " bytes"
  | OverflowError msg => msg
  | RegistryException msg => msg
  end.

(** ** Slicing and [struct.unpack] *)

(** How a slice bound is brought into [0 .. len]: a negative bound counts
    from the end, and every bound is clamped. *)
Definition adjust_index (len i : Z) : Z :=
  if i <? 0 then Z.max 0 (i + len) else Z.min i len.

(** [b[start:stop]]: never raises, returns the bytes actually present. *)
Definition slice (b : bytes) (start stop : Z) : bytes :=
  let len := Z.of_nat (length b) in
  let lo := adjust_index len start in
  let hi := adjust_index len stop in
  firstn (Z.to_nat (hi - lo)) (skipn (Z.to_nat lo) b).

Definition byte_val (b : byte) : Z := Z.of_N (Byte.to_N b).

(** Little-endian unsigned value of a byte string. *)
Fixpoint le_uint (b : bytes) : Z :=
  match b with
  | [] => 0
  | x :: b' => byte_val x + 256 * le_uint b'
  end.

(** [struct.unpack(fmt, b)[0]] for a one-field little-endian unsigned
    format of [size] bytes: the buffer must have exactly that size. *)
Definition unpack_uint (size : Z) (b : bytes) : result Z :=
  if Z.of_nat (length b) =? size then Ok (le_uint b)
  else Raise (struct_error size).

Definition unpack_H : bytes -> result Z := unpack_uint 2.   (* "<H" *)
Definition unpack_I : bytes -> result Z := unpack_uint 4.   (* "<I" *)
Definition unpack_Q : bytes -> result Z := unpack_uint 8.   (* "<Q" *)

(** ** [bytes.decode('utf-16le', errors='replace')] and [str.strip()] *)

Definition REPLACEMENT : Z := 0xFFFD.

Definition is_surrogate (ch : Z) : bool := (0xD800 <=? ch) && (ch <=? 0xDFFF).
Definition is_high_surrogate (ch : Z) : bool := (0xD800 <=? ch) && (ch <=? 0xDBFF).
Definition is_low_surrogate (ch : Z) : bool := (0xDC00 <=? ch) && (ch <=? 0xDFFF).

Definition join_surrogates (hi lo : Z) : Z :=
  0x10000 + Z.lor (Z.shiftl (Z.land hi 0x3FF) 10) (Z.land lo 0x3FF).

(** The decoder reads 16-bit little-endian units.  A unit outside the
    surrogate range is a character; a high surrogate followed by a low one
    is one character; a lone low surrogate, or a high surrogate followed by
    another unit, is replaced by U+FFFD and decoding resumes at the next
    unit; a high surrogate with no complete unit after it, or a single
    trailing byte, is replaced by one U+FFFD that ends the text. *)
Fixpoint decode_utf16le_replace (b : bytes) : str :=
  match b with
  | [] => []
  | [_] => [REPLACEMENT]
  | lo :: hi :: rest =>
      let ch := byte_val lo + 256 * byte_val hi in
      if negb (is_surrogate ch) then ch :: decode_utf16le_replace rest
      else if negb (is_high_surrogate ch) then
        REPLACEMENT :: decode_utf16le_replace rest
      else
        match rest with
        | lo2 :: hi2 :: rest' =>
            let ch2 := byte_val lo2 + 256 * byte_val hi2 in
            if is_low_surrogate ch2
            then join_surrogates ch ch2 :: decode_utf16le_replace rest'
            else REPLACEMENT :: decode_utf16le_replace rest
        | _ => [REPLACEMENT]
        end
  end.

(** The characters [str.isspace] accepts, which [strip()] removes. *)
Definition isspace (c : Z) : bool :=
  ((0x09 <=? c) && (c <=? 0x0D)) || ((0x1C <=? c) && (c <=? 0x20))
  || (c =? 0x85) || (c =? 0xA0) || (c =? 0x1680)
  || ((0x2000 <=? c) && (c <=? 0x200A))
  || (c =? 0x2028) || (c =? 0x2029) || (c =? 0x202F) || (c =? 0x205F)
  || (c =? 0x3000).

Fixpoint lstrip (s : str) : str :=
  match s with
  | [] => []
  | c :: s' => if isspace c then lstrip s' else s
  end.

Definition rstrip (s : str) : str := rev (lstrip (rev s)).

Definition strip (s : str) : str := rstrip (lstrip s).

(** ** [decode_username] *)

(** The body of the [try] block. *)
Definition decode_username_try (v_blob : bytes) : result str :=
  username_length_chars <- unpack_H (slice v_blob 0x0C 0x0E) ;;
  let username_length_bytes := username_length_chars * 2 in
  username_offset <- unpack_I (slice v_blob 0x10 0x14) ;;
  let username_data :=
    slice v_blob username_offset (username_offset + username_length_bytes) in
  let username := decode_utf16le_replace username_data in
  Ok (strip username).

Definition decode_username (v_blob : bytes) : str :=
  match decode_username_try v_blob with
  | Ok username => username
  | Raise e => lit "Error decoding username: " ++ exn_str e
  end.

(** ** [datetime] arithmetic and [strftime] *)

Record timedelta : Type := mk_timedelta
  { days : Z; seconds : Z; microseconds : Z }.

Record datetime : Type := mk_datetime
  { year : Z; month : Z; day : Z;
    hour : Z; minute : Z; second : Z; microsecond : Z }.

Definition _MAXORDINAL : Z := 3652059.   (* date(9999, 12, 31).toordinal() *)

Definition _DAYS_IN_MONTH : list Z :=
  [-1; 31; 28; 31; 30; 31; 30; 31; 31; 30; 31; 30; 31].

Definition _DAYS_BEFORE_MONTH : list Z :=
  [-1; 0; 31; 59; 90; 120; 151; 181; 212; 243; 273; 304; 334].

Definition index (l : list Z) (i : Z) : Z := nth (Z.to_nat i) l 0.

Definition _is_leap (y : Z) : bool :=
  (y mod 4 =? 0) && (negb (y mod 100 =? 0) || (y mod 400 =? 0)).

Definition _days_before_year (y : Z) : Z :=
  let y := y - 1 in y * 365 + y / 4 - y / 100 + y / 400.

Definition _days_in_month (y m : Z) : Z :=
  if (m =? 2) && _is_leap y then 29 else index _DAYS_IN_MONTH m.

Definition _days_before_month (y m : Z) : Z :=
  index _DAYS_BEFORE_MONTH m + (if (2 <? m) && _is_leap y then 1 else 0).

Definition _ymd2ord (y m d : Z) : Z :=
  _days_before_year y + _days_before_month y m + d.

Definition _DI400Y : Z := 146097.   (* days in 400 years *)
Definition _DI100Y : Z := 36524.    (* days in 100 years *)
Definition _DI4Y : Z := 1461.       (* days in 4 years *)

(** Ordinal (0001-01-01 is day 1) to (year, month, day). *)
Definition _ord2ymd (n : Z) : Z * Z * Z :=
  let n := n - 1 in
  let n400 := n / _DI400Y in
  let n := n mod _DI400Y in
  let y := n400 * 400 + 1 in
  let n100 := n / _DI100Y in
  let n := n mod _DI100Y in
  let n4 := n / _DI4Y in
  let n := n mod _DI4Y in
  let n1 := n / 365 in
  let n := n mod 365 in
  let y := y + (n100 * 100 + n4 * 4 + n1) in
  if (n1 =? 4) || (n100 =? 4) then (y - 1, 12, 31)
  else
    let leapyear := (n1 =? 3) && (negb (n4 =? 24) || (n100 =? 3)) in
    let m := Z.shiftr (n + 50) 5 in
    let preceding :=
      index _DAYS_BEFORE_MONTH m + (if (2 <? m) && leapyear then 1 else 0) in
    if n <? preceding then
      let m := m - 1 in
      let preceding :=
        preceding
        - (index _DAYS_IN_MONTH m + (if (m =? 2) && leapyear then 1 else 0)) in
      (y, m, n - preceding + 1)
    else (y, m, n - preceding + 1).

(** [timedelta(microseconds=us)]: the normalised (days, seconds,
    microseconds) triple; a day count beyond 999999999 is refused. *)
Definition timedelta_microseconds (us : Z) : result timedelta :=
  let s := us / 1000000 in
  let us := us mod 1000000 in
  let d := s / 86400 in
  let s := s mod 86400 in
  if 999999999 <? Z.abs d then
    Raise (OverflowError
             (lit "days=" ++ decimal d
              ++ lit "; must have magnitude <= 999999999"))
  else Ok (mk_timedelta d s us).

Definition toordinal (dt : datetime) : Z := _ymd2ord (year dt) (month dt) (day dt).

(** [dt + td]: the sum is normalised and the day count turned back into a
    date; a date outside years 1 .. 9999 is an [OverflowError]. *)
Definition datetime_add (dt : datetime) (td : timedelta) : result datetime :=
  let us := microsecond dt + microseconds td in
  let s := hour dt * 3600 + minute dt * 60 + second dt + seconds td
           + us / 1000000 in
  let us := us mod 1000000 in
  let d := toordinal dt + days td + s / 86400 in
  let s := s mod 86400 in
  let hh := s / 3600 in
  let rem := s mod 3600 in
  let mm := rem / 60 in
  let ss := rem mod 60 in
  if (0 <? d) && (d <=? _MAXORDINAL) then
    let '(y, m, dd) := _ord2ymd d in
    Ok (mk_datetime y m dd hh mm ss us)
  else Raise (OverflowError (lit "date value out of range")).

Definition digit (n : Z) : Z := 48 + n mod 10.
Definition pad2 (n : Z) : str := [digit (n / 10); digit n].
Definition pad4 (n : Z) : str :=
  [digit (n / 1000); digit (n / 100); digit (n / 10); digit n].

(** [dt.strftime("%Y-%m-%d %H:%M:%S")], for a four-digit year. *)
Definition strftime (dt : datetime) : str :=
  pad4 (year dt) ++ lit "-" ++ pad2 (month dt) ++ lit "-" ++ pad2 (day dt)
  ++ lit " " ++ pad2 (hour dt) ++ lit ":" ++ pad2 (minute dt) ++ lit ":"
  ++ pad2 (second dt).

(** ** [decode_f_value] *)

Definition epoch_1601 : datetime := mk_datetime 1601 1 1 0 0 0 0.

(** The body of the [try] block. *)
Definition decode_f_value_try (f_blob : bytes) : result (str * str) :=
  let last_login_bytes := slice f_blob 8 16 in
  timestamp <- unpack_Q last_login_bytes ;;
  last_login <-
    (if timestamp =? 0 then Ok (lit "Never")
     else
       delta <- timedelta_microseconds (timestamp / 10) ;;
       last_login_dt <- datetime_add epoch_1601 delta ;;
       Ok (strftime last_login_dt)) ;;
  account_flags <- unpack_I (slice f_blob 24 28) ;;
  let password_not_required := negb (Z.land account_flags 0x20 =? 0) in
  let password_policy :=
    if password_not_required then lit "No Password Required"
    else lit "Password Required" in
  Ok (last_login, password_policy).

Definition decode_f_value (f_blob : bytes) : str * str :=
  match decode_f_value_try f_blob with
  | Ok r => r
  | Raise e => (lit "Unknown", lit "Error: " ++ exn_str e)
  end.

(** ** [parse_sam_hive] *)

(** A user subkey as the hive-access library presents it: its name and,
    for a value name, what [subkey.value(n).value()] gives: the raw bytes
    or the library's exception. *)
Record subkey : Type := mk_subkey
  { name : str; value : str -> result bytes }.

(** What opening the hive and its Users key can give. *)
Inductive hive : Type :=
| OpenFails (e : exn)
| UsersKeyFails (e : exn)
| UsersKey (subkeys : list subkey).

Definition str_eqb (a b : str) : bool :=
  if list_eq_dec Z.eq_dec a b then true else false.

Definition NL : str := [10].

(** One iteration of the loop over subkeys; [out] is what has been
    printed so far. *)
Definition parse_subkey (out : list str) (sk : subkey) : list str :=
  if str_eqb (name sk) (lit "Names") then out
  else
    let out := out ++ [NL ++ lit "User RID: " ++ name sk] in
    match (v_val <- value sk (lit "V") ;;
           f_val <- value sk (lit "F") ;;
           Ok (v_val, f_val)) with
    | Ok (v_val, f_val) =>
        let username := decode_username v_val in
        let '(last_login, password_policy) := decode_f_value f_val in
        out ++ [lit "Username: " ++ username]
            ++ [lit "Last Login: " ++ last_login]
            ++ [lit "Password Policy: " ++ password_policy]
    | Raise e =>
        out ++ [lit "Error processing subkey " ++ name sk ++ lit ": "
                ++ exn_str e]
    end.

Definition parse_sam_hive (h : hive) : list str :=
  match h with
  | OpenFails e => [lit "Error opening SAM hive: " ++ exn_str e]
  | UsersKeyFails e => [lit "Error accessing Users key: " ++ exn_str e]
  | UsersKey subkeys => fold_left parse_subkey subkeys []
  end.

(** ** Sample blobs *)

(** A [V] blob declaring length 4 at 0x0C and offset 0x20 at 0x10, with
    "Jane" in UTF-16LE at 0x20. *)
Definition jane_v : bytes :=
  repeat x00 12 ++ [x04; x00] ++ [x00; x00] ++ [x20; x00; x00; x00]
  ++ repeat x00 12 ++ [x4a; x00; x61; x00; x6e; x00; x65; x00].

(** An [F] blob of 28 bytes with FILETIME bytes [ts] at 0x08 and flags
    bytes [flags] at 0x18. *)
Definition mk_f (ts flags : bytes) : bytes :=
  repeat x00 8 ++ ts ++ repeat x00 8 ++ flags.

(** ** Auxiliary definitions for the statements *)

(** The text decoded on the normal path. *)
Definition username_of (v_blob : bytes) : str :=
  let n := le_uint (slice v_blob 0x0C 0x0E) in
  let o := le_uint (slice v_blob 0x10 0x14) in
  strip (decode_utf16le_replace (slice v_blob o (o + n * 2))).


(** The two halves of the [F] decoder, as functions of the values read. *)
Definition last_login_of (timestamp : Z) : result str :=
  if timestamp =? 0 then Ok (lit "Never")
  else
    delta <- timedelta_microseconds (timestamp / 10) ;;
    last_login_dt <- datetime_add epoch_1601 delta ;;
    Ok (strftime last_login_dt).

Definition password_policy_of (account_flags : Z) : str :=
  if negb (Z.land account_flags 0x20 =? 0) then lit "No Password Required"
  else lit "Password Required".

(** The first FILETIME whose date falls after 9999-12-31. *)
Definition FILETIME_LIMIT : Z := (_MAXORDINAL - 584389 + 1) * 86400 * 1000000 * 10.

(** The calendar time a FILETIME below the limit converts to. *)
Definition datetime_of_filetime (timestamp : Z) : datetime :=
  let us := timestamp / 10 in
  let s := (us / 1000000) mod 86400 in
  let '(y, m, d) := _ord2ymd (584389 + us / 1000000 / 86400) in
  mk_datetime y m d (s / 3600) (s mod 3600 / 60) (s mod 3600 mod 60)
              (us mod 1000000).

(** A well-formed calendar time, and its distance from 0001-01-01T00:00:00
    in microseconds. *)
Definition valid_datetime (dt : datetime) : Prop :=
  1 <= year dt <= 9999 /\ 1 <= month dt <= 12
  /\ 1 <= day dt <= _days_in_month (year dt) (month dt)
  /\ 0 <= hour dt < 24 /\ 0 <= minute dt < 60 /\ 0 <= second dt < 60
  /\ 0 <= microsecond dt < 1000000.

Definition microseconds_since_year1 (dt : datetime) : Z :=
  ((toordinal dt - 1) * 86400 + hour dt * 3600 + minute dt * 60 + second dt)
  * 1000000 + microsecond dt.

(** UTF-16LE encoding of a text of characters below U+10000. *)
Definition byte_of_Z (z : Z) : byte :=
  match Byte.of_N (Z.to_N (z mod 256)) with
  | Some b => b
  | None => x00
  end.

Definition encode_utf16le (s : str) : bytes :=
  flat_map (fun c => [byte_of_Z c; byte_of_Z (c / 256)]) s.

Definition printable_ascii (c : Z) : Prop := 0x20 <= c <= 0x7E.

(** The month and day of the [n]-th day (from 0) of a year, the last step
    of [_ord2ymd]. *)
Definition month_day (n : Z) (leapyear : bool) : Z * Z :=
  let m := Z.shiftr (n + 50) 5 in
  let preceding :=
    index _DAYS_BEFORE_MONTH m + (if (2 <? m) && leapyear then 1 else 0) in
  if n <? preceding then
    let m := m - 1 in
    let preceding :=
      preceding
      - (index _DAYS_IN_MONTH m + (if (m =? 2) && leapyear then 1 else 0)) in
    (m, n - preceding + 1)
  else (m, n - preceding + 1).

Definition month_day_ok (leapyear : bool) (k : nat) : bool :=
  let n := Z.of_nat k in
  let '(m, d) := month_day n leapyear in
  (1 <=? m) && (m <=? 12) && (1 <=? d)
  && (d <=? (if (m =? 2) && leapyear then 29 else index _DAYS_IN_MONTH m))
  && (index _DAYS_BEFORE_MONTH m + (if (2 <? m) && leapyear then 1 else 0) + d
      =? n + 1).

(** The last-login text for a FILETIME that converts. *)
Definition last_login_text (timestamp : Z) : str :=
  if timestamp =? 0 then lit "Never"
  else strftime (datetime_of_filetime timestamp).

(** FILETIME 129021310000000000 and flags 0x00000200. *)
Definition sample_f : bytes :=
  mk_f [x00; x6c; x01; xa7; x32; x60; xca; x01] [x00; x02; x00; x00].

(** ** Sample subkeys *)

(** The values of a subkey given as an association list; a name that is
    not listed makes the library raise. *)
Definition values_of (l : list (str * bytes)) (n : str) : result bytes :=
  match find (fun kv => str_eqb (fst kv) n) l with
  | Some kv => Ok (snd kv)
  | None => Raise (RegistryException (lit "value not found: " ++ n))
  end.

Definition zero_f : bytes := mk_f (repeat x00 8) [x20; x00; x00; x00].

Definition subkey_1001 : subkey :=
  mk_subkey (lit "1001") (values_of [(lit "V", jane_v); (lit "F", zero_f)]).

Definition subkey_without_f : subkey :=
  mk_subkey (lit "1001") (values_of [(lit "V", jane_v)]).

Definition subkey_names : subkey :=
  mk_subkey (lit "Names") (values_of [(lit "V", jane_v); (lit "F", zero_f)]).

Definition subkey_1002 : subkey :=
  mk_subkey (lit "1002") (values_of [(lit "V", jane_v); (lit "F", zero_f)]).

(** ** Auxiliary definitions for further properties *)

(** A Unicode scalar value: a code point that is not a surrogate. *)
Definition scalar_value (c : Z) : Prop :=
  0 <= c <= 0x10FFFF /\ is_surrogate c = false.

(** A scalar value of the Basic Multilingual Plane, one UTF-16 unit. *)
Definition bmp_scalar (c : Z) : Prop :=
  0 <= c <= 0xFFFF /\ is_surrogate c = false.

(** A printed string that starts with a newline: only the "User RID"
    line of an account does. *)
Definition is_header (line : str) : bool :=
  match line with
  | c :: _ => c =? 10
  | [] => false
  end.

Definition is_account (sk : subkey) : bool :=
  negb (str_eqb (name sk) (lit "Names")).

(** The subkeys the loop runs over; none when the hive or its Users key
    cannot be opened. *)
Definition subkeys_of (h : hive) : list subkey :=
  match h with
  | UsersKey subkeys => subkeys
  | OpenFails _ | UsersKeyFails _ => []
  end.

(** A [V] blob declaring length 3 at 0x0C and offset 0x20 at 0x10, with the
    Cyrillic name U+0410 U+043D U+044F in UTF-16LE at 0x20. *)
Definition anya_v : bytes :=
  repeat x00 12 ++ [x03; x00] ++ [x00; x00] ++ [x20; x00; x00; x00]
  ++ repeat x00 12 ++ [x10; x04; x3d; x04; x4f; x04].

(** A [V] blob declaring length 7 at 0x0C and offset 0x20 at 0x10, with
    "  Jane " (two spaces before, one after) in UTF-16LE at 0x20. *)
Definition spaced_jane_v : bytes :=
  repeat x00 12 ++ [x07; x00] ++ [x00; x00] ++ [x20; x00; x00; x00]
  ++ repeat x00 12
  ++ [x20; x00; x20; x00; x4a; x00; x61; x00; x6e; x00; x65; x00; x20; x00].

(** A [V] blob declaring length 5 at 0x0C and offset 0x20 at 0x10, with
    U+3000, the Cyrillic name U+0410 U+043D U+044F and a space at 0x20. *)
Definition spaced_anya_v : bytes :=
  repeat x00 12 ++ [x05; x00] ++ [x00; x00] ++ [x20; x00; x00; x00]
  ++ repeat x00 12
  ++ [x00; x30; x10; x04; x3d; x04; x4f; x04; x20; x00].

(** * Proofs *)

(** Linear arithmetic with division and remainder by constants. *)
Ltac div_lia := Z.to_euclidean_division_equations; lia.

(** ** Slices and unpacking *)

Lemma length_slice (b : bytes) (i j : Z) :
  0 <= i -> 0 <= j ->
  Z.of_nat (length (slice b i j))
  = Z.max 0 (Z.min j (Z.of_nat (length b)) - Z.min i (Z.of_nat (length b))).
Proof.
  intros Hi Hj. unfold slice, adjust_index.
  destruct (Z.ltb_spec i 0); [lia|]. destruct (Z.ltb_spec j 0); [lia|].
  rewrite length_firstn, length_skipn. lia.
Qed.

Lemma slice_firstn_skipn (b : bytes) (i n : Z) :
  0 <= i -> 0 <= n ->
  slice b i (i + n) = firstn (Z.to_nat n) (skipn (Z.to_nat i) b).
Proof.
  intros Hi Hn. unfold slice, adjust_index.
  destruct (Z.ltb_spec i 0); [lia|]. destruct (Z.ltb_spec (i + n) 0); [lia|].
  set (len := Z.of_nat (length b)).
  destruct (Z.le_gt_cases i len) as [Hle | Hgt].
  - rewrite (Z.min_l i len) by lia.
    destruct (Z.le_gt_cases (i + n) len).
    + rewrite Z.min_l by lia. f_equal. lia.
    + rewrite Z.min_r by lia.
      rewrite !firstn_all2; [reflexivity | |]; rewrite length_skipn; lia.
  - rewrite !Z.min_r by lia.
    rewrite !skipn_all2 by lia. now rewrite !firstn_nil.
Qed.

Lemma le_uint_bounds (b : bytes) : 0 <= le_uint b < 256 ^ Z.of_nat (length b).
Proof.
  induction b as [| x b IH].
  - simpl. lia.
  - cbn [le_uint length]. rewrite Nat2Z.inj_succ, Z.pow_succ_r by lia.
    assert (0 <= byte_val x < 256).
    { unfold byte_val. pose proof (Byte.to_N_bounded x). lia. }
    lia.
Qed.

Lemma unpack_uint_ok (size : Z) (b : bytes) :
  Z.of_nat (length b) = size -> unpack_uint size b = Ok (le_uint b).
Proof. intros H. unfold unpack_uint. now rewrite (proj2 (Z.eqb_eq _ _) H). Qed.

Lemma unpack_uint_short (size : Z) (b : bytes) :
  Z.of_nat (length b) <> size -> unpack_uint size b = Raise (struct_error size).
Proof. intros H. unfold unpack_uint. now rewrite (proj2 (Z.eqb_neq _ _) H). Qed.

(** A fixed-width field at [off] is readable exactly when the blob reaches
    [off + size]. *)
Lemma unpack_field (b : bytes) (off size : Z) :
  0 <= off -> 0 < size ->
  unpack_uint size (slice b off (off + size))
  = if Z.of_nat (length b) <? off + size then Raise (struct_error size)
    else Ok (le_uint (slice b off (off + size))).
Proof.
  intros Hoff Hsize.
  pose proof (length_slice b off (off + size) Hoff ltac:(lia)) as L.
  destruct (Z.ltb_spec (Z.of_nat (length b)) (off + size)).
  - apply unpack_uint_short. lia.
  - apply unpack_uint_ok. lia.
Qed.

(** ** The username decoder, case by case *)

Lemma decode_username_try_cases (v_blob : bytes) :
  decode_username_try v_blob
  = if Z.of_nat (length v_blob) <? 0x0E then Raise (struct_error 2)
    else if Z.of_nat (length v_blob) <? 0x14 then Raise (struct_error 4)
    else Ok (username_of v_blob).
Proof.
  unfold decode_username_try, unpack_H, unpack_I.
  change 0x0E with (0x0C + 2). change 0x14 with (0x10 + 4).
  rewrite !unpack_field by lia.
  destruct (Z.ltb_spec (Z.of_nat (length v_blob)) (0x0C + 2)); [reflexivity|].
  cbn [bind].
  destruct (Z.ltb_spec (Z.of_nat (length v_blob)) (0x10 + 4)); reflexivity.
Qed.

Lemma decode_username_cases (v_blob : bytes) :
  decode_username v_blob
  = if Z.of_nat (length v_blob) <? 0x0E
    then lit "Error decoding username: unpack requires a buffer of 2 bytes"
    else if Z.of_nat (length v_blob) <? 0x14
    then lit "Error decoding username: unpack requires a buffer of 4 bytes"
    else username_of v_blob.
Proof.
  unfold decode_username. rewrite decode_username_try_cases.
  destruct (_ <? 0x0E); [reflexivity|]. destruct (_ <? 0x14); reflexivity.
Qed.

Lemma username_of_present (v_blob : bytes) :
  username_of v_blob
  = strip (decode_utf16le_replace
             (firstn (Z.to_nat (le_uint (slice v_blob 0x0C 0x0E) * 2))
                (skipn (Z.to_nat (le_uint (slice v_blob 0x10 0x14))) v_blob))).
Proof.
  unfold username_of.
  pose proof (le_uint_bounds (slice v_blob 0x0C 0x0E)).
  pose proof (le_uint_bounds (slice v_blob 0x10 0x14)).
  now rewrite slice_firstn_skipn by lia.
Qed.

(** ** The [F] decoder, case by case *)

Lemma decode_f_value_try_unfold (f_blob : bytes) :
  decode_f_value_try f_blob
  = (timestamp <- unpack_Q (slice f_blob 8 16) ;;
     last_login <- last_login_of timestamp ;;
     account_flags <- unpack_I (slice f_blob 24 28) ;;
     Ok (last_login, password_policy_of account_flags)).
Proof. reflexivity. Qed.

Lemma toordinal_epoch_1601 : toordinal epoch_1601 = 584389.
Proof. reflexivity. Qed.

Lemma last_login_of_cases (timestamp : Z) :
  0 <= timestamp < 2 ^ 64 ->
  last_login_of timestamp
  = if timestamp =? 0 then Ok (lit "Never")
    else if timestamp <? FILETIME_LIMIT
    then Ok (strftime (datetime_of_filetime timestamp))
    else Raise (OverflowError (lit "date value out of range")).
Proof.
  intros Hts. unfold last_login_of.
  change (2 ^ 64) with 18446744073709551616 in Hts.
  destruct (Z.eqb_spec timestamp 0) as [|Hnz]; [reflexivity|].
  unfold timedelta_microseconds.
  set (us := timestamp / 10).
  assert (Hus : 0 <= us < 18446744073709551616) by (subst us; div_lia).
  set (s := us / 1000000).
  set (d := s / 86400).
  assert (Hd : 0 <= d <= 999999999).
  { subst d s. div_lia. }
  destruct (Z.ltb_spec 999999999 (Z.abs d)) as [Habs|_]; [lia|].
  cbn [bind]. unfold datetime_add.
  rewrite toordinal_epoch_1601.
  cbn [microsecond hour minute second microseconds seconds days epoch_1601].
  assert (Hm : 0 <= us mod 1000000 < 1000000) by (apply Z.mod_pos_bound; lia).
  assert (Hs : 0 <= s mod 86400 < 86400) by (apply Z.mod_pos_bound; lia).
  replace ((0 + us mod 1000000) / 1000000) with 0 by (symmetry; apply Z.div_small; lia).
  replace ((0 + us mod 1000000) mod 1000000) with (us mod 1000000)
    by (symmetry; apply Z.mod_small; lia).
  replace (0 * 3600 + 0 * 60 + 0 + s mod 86400 + 0) with (s mod 86400) by lia.
  rewrite (Z.div_small (s mod 86400)) by lia.
  rewrite (Z.mod_small (s mod 86400) 86400) by lia.
  replace (584389 + d + 0) with (584389 + d) by lia.
  assert (Hlim : timestamp < FILETIME_LIMIT <-> 584389 + d <= _MAXORDINAL).
  { unfold FILETIME_LIMIT, _MAXORDINAL. subst d s us. div_lia. }
  destruct (Z.ltb_spec timestamp FILETIME_LIMIT) as [Hlt|Hge].
  - apply Hlim in Hlt.
    rewrite (proj2 (Z.ltb_lt 0 (584389 + d))) by lia.
    rewrite (proj2 (Z.leb_le _ _) Hlt). cbn [andb].
    unfold datetime_of_filetime. fold us. fold s. fold d.
    destruct (_ord2ymd (584389 + d)) as [[y m] dd]. reflexivity.
  - assert (~ 584389 + d <= _MAXORDINAL) by (rewrite <- Hlim; lia).
    rewrite (proj2 (Z.leb_gt _ _)) by lia.
    rewrite andb_false_r. reflexivity.
Qed.

(** ** Ordinals and calendar dates *)

Lemma month_day_spec (n : Z) (leapyear : bool) :
  0 <= n < 365 + (if leapyear then 1 else 0) ->
  let '(m, d) := month_day n leapyear in
  1 <= m <= 12
  /\ 1 <= d <= (if (m =? 2) && leapyear then 29 else index _DAYS_IN_MONTH m)
  /\ index _DAYS_BEFORE_MONTH m + (if (2 <? m) && leapyear then 1 else 0) + d
     = n + 1.
Proof.
  intros Hn.
  assert (Hall : forall k, In k (seq 0 (if leapyear then 366 else 365)) ->
                           month_day_ok leapyear k = true).
  { apply forallb_forall. destruct leapyear; vm_compute; reflexivity. }
  specialize (Hall (Z.to_nat n)).
  unfold month_day_ok in Hall. rewrite Z2Nat.id in Hall by lia.
  destruct (month_day n leapyear) as [m d].
  rewrite !andb_true_iff, !Z.leb_le, Z.eqb_eq in Hall.
  assert (Hin : In (Z.to_nat n) (seq 0 (if leapyear then 366 else 365))).
  { apply in_seq. destruct leapyear; lia. }
  specialize (Hall Hin). lia.
Qed.

Lemma ord2ymd_year (n : Z) :
  1 <= n <= _MAXORDINAL ->
  exists y r,
    1 <= y <= 9999
    /\ 0 <= r < 365 + (if _is_leap y then 1 else 0)
    /\ n = _days_before_year y + r + 1
    /\ _ord2ymd n = (let '(m, d) := month_day r (_is_leap y) in (y, m, d)).
Proof.
  intros Hn. unfold _MAXORDINAL in Hn.
  unfold _ord2ymd, _DI400Y, _DI100Y, _DI4Y.
  set (n0 := n - 1).
  set (n400 := n0 / 146097). set (r400 := n0 mod 146097).
  set (n100 := r400 / 36524). set (r100 := r400 mod 36524).
  set (n4 := r100 / 1461). set (r4 := r100 mod 1461).
  set (n1 := r4 / 365). set (r := r4 mod 365).
  assert (E400 : n0 = 146097 * n400 + r400 /\ 0 <= r400 < 146097)
    by (subst n400 r400; div_lia).
  assert (E100 : r400 = 36524 * n100 + r100 /\ 0 <= r100 < 36524)
    by (subst n100 r100; div_lia).
  assert (E4 : r100 = 1461 * n4 + r4 /\ 0 <= r4 < 1461)
    by (subst n4 r4; div_lia).
  assert (E1 : r4 = 365 * n1 + r /\ 0 <= r < 365)
    by (subst n1 r; div_lia).
  assert (E0 : n0 = n - 1) by reflexivity.
  clearbody n0 n400 r400 n100 r100 n4 r4 n1 r.
  destruct ((n1 =? 4) || (n100 =? 4)) eqn:Hedge.
  - (* the last day of a leap year *)
    exists (n400 * 400 + 1 + (n100 * 100 + n4 * 4 + n1) - 1), 365.
    set (y := n400 * 400 + 1 + (n100 * 100 + n4 * 4 + n1) - 1).
    apply orb_true_iff in Hedge. rewrite !Z.eqb_eq in Hedge.
    assert (Hleap : _is_leap y = true).
    { unfold _is_leap. subst y.
      destruct (Z.eqb_spec ((n400 * 400 + 1 + (n100 * 100 + n4 * 4 + n1) - 1) mod 4) 0);
      destruct (Z.eqb_spec ((n400 * 400 + 1 + (n100 * 100 + n4 * 4 + n1) - 1) mod 100) 0);
      destruct (Z.eqb_spec ((n400 * 400 + 1 + (n100 * 100 + n4 * 4 + n1) - 1) mod 400) 0);
        try reflexivity; exfalso; div_lia. }
    rewrite Hleap. unfold _days_before_year. subst y.
    repeat split; try reflexivity; div_lia.
  - apply orb_false_iff in Hedge. rewrite !Z.eqb_neq in Hedge.
    exists (n400 * 400 + 1 + (n100 * 100 + n4 * 4 + n1)), r.
    set (y := n400 * 400 + 1 + (n100 * 100 + n4 * 4 + n1)).
    assert (Hleap : (n1 =? 3) && (negb (n4 =? 24) || (n100 =? 3)) = _is_leap y).
    { unfold _is_leap. subst y.
      destruct (Z.eqb_spec n1 3); destruct (Z.eqb_spec n4 24);
        destruct (Z.eqb_spec n100 3);
      destruct (Z.eqb_spec ((n400 * 400 + 1 + (n100 * 100 + n4 * 4 + n1)) mod 4) 0);
      destruct (Z.eqb_spec ((n400 * 400 + 1 + (n100 * 100 + n4 * 4 + n1)) mod 100) 0);
      destruct (Z.eqb_spec ((n400 * 400 + 1 + (n100 * 100 + n4 * 4 + n1)) mod 400) 0);
        try reflexivity; exfalso; div_lia. }
    rewrite Hleap. unfold month_day.
    split; [|split; [|split]].
    + unfold _days_before_year in *. subst y. div_lia.
    + destruct (_is_leap y); [|lia].
      apply andb_true_iff in Hleap. rewrite Z.eqb_eq in Hleap. lia.
    + unfold _days_before_year. subst y. div_lia.
    + destruct (r <? _); reflexivity.
Qed.

(** For an ordinal of years 1 to 9999, [_ord2ymd] gives a date of the
    calendar, and [_ymd2ord] maps it back. *)
Lemma ord2ymd_spec (n : Z) :
  1 <= n <= _MAXORDINAL ->
  let '(y, m, d) := _ord2ymd n in
  1 <= y <= 9999 /\ 1 <= m <= 12 /\ 1 <= d <= _days_in_month y m
  /\ _ymd2ord y m d = n.
Proof.
  intros Hn. destruct (ord2ymd_year n Hn) as (y & r & Hy & Hr & En & ->).
  pose proof (month_day_spec r (_is_leap y) Hr) as Hmd.
  destruct (month_day r (_is_leap y)) as [m d].
  unfold _days_in_month, _ymd2ord, _days_before_month.
  destruct Hmd as (Hm & Hd & Hsum). repeat split; try lia.
Qed.

(** Ordinals from 1601-01-01 on fall in years from 1601 on. *)
Lemma ord2ymd_from_1601 (n : Z) :
  584389 <= n <= _MAXORDINAL -> 1601 <= fst (fst (_ord2ymd n)).
Proof.
  intros Hn.
  destruct (ord2ymd_year n ltac:(lia)) as (y & r & Hy & Hr & En & ->).
  destruct (month_day r (_is_leap y)) as [m d]. cbn [fst].
  unfold _days_before_year in En.
  destruct (_is_leap y); div_lia.
Qed.

Lemma datetime_of_filetime_spec (timestamp : Z) :
  0 <= timestamp < FILETIME_LIMIT ->
  valid_datetime (datetime_of_filetime timestamp)
  /\ 1601 <= year (datetime_of_filetime timestamp)
  /\ microseconds_since_year1 (datetime_of_filetime timestamp)
     = microseconds_since_year1 epoch_1601 + timestamp / 10.
Proof.
  intros Hts. unfold FILETIME_LIMIT, _MAXORDINAL in Hts.
  unfold datetime_of_filetime.
  set (us := timestamp / 10).
  set (s := us / 1000000).
  set (d := s / 86400).
  assert (Hus : 0 <= us) by (subst us; div_lia).
  assert (Hd : 0 <= d <= 3067670) by (subst d s us; div_lia).
  pose proof (ord2ymd_spec (584389 + d)) as Hord.
  pose proof (ord2ymd_from_1601 (584389 + d)) as Hfrom.
  destruct (_ord2ymd (584389 + d)) as [[y m] dd].
  destruct Hord as (Hy & Hm & Hdd & Hback); [unfold _MAXORDINAL; lia|].
  cbn [fst] in Hfrom. specialize (Hfrom ltac:(unfold _MAXORDINAL; lia)).
  unfold valid_datetime, microseconds_since_year1, toordinal.
  cbn [year month day hour minute second microsecond].
  rewrite Hback. cbn [epoch_1601 year month day hour minute second microsecond].
  change (_ymd2ord 1601 1 1) with 584389.
  subst d s. clearbody us. repeat split; try lia; div_lia.
Qed.

Lemma decode_f_value_try_cases (f_blob : bytes) :
  decode_f_value_try f_blob
  = if Z.of_nat (length f_blob) <? 16 then Raise (struct_error 8)
    else
      let timestamp := le_uint (slice f_blob 8 16) in
      if FILETIME_LIMIT <=? timestamp
      then Raise (OverflowError (lit "date value out of range"))
      else if Z.of_nat (length f_blob) <? 28 then Raise (struct_error 4)
      else Ok (last_login_text timestamp,
               password_policy_of (le_uint (slice f_blob 24 28))).
Proof.
  rewrite decode_f_value_try_unfold. unfold unpack_Q, unpack_I.
  change 16 with (8 + 8). change 28 with (24 + 4).
  rewrite !unpack_field by lia.
  destruct (Z.ltb_spec (Z.of_nat (length f_blob)) (8 + 8)) as [|Hlen];
    [reflexivity|].
  cbn [bind]. cbv zeta.
  pose proof (le_uint_bounds (slice f_blob 8 (8 + 8))) as Hb.
  pose proof (length_slice f_blob 8 (8 + 8) ltac:(lia) ltac:(lia)) as Hl.
  replace (Z.of_nat (length (slice f_blob 8 (8 + 8)))) with 8 in Hb by lia.
  change (256 ^ 8) with (2 ^ 64) in Hb.
  rewrite (last_login_of_cases _ Hb). unfold last_login_text.
  set (timestamp := le_uint (slice f_blob 8 (8 + 8))) in *.
  destruct (Z.eqb_spec timestamp 0) as [Hz|Hnz].
  - rewrite (proj2 (Z.leb_gt FILETIME_LIMIT timestamp))
      by (rewrite Hz; reflexivity).
    cbn [bind]. destruct (_ <? 24 + 4); reflexivity.
  - destruct (Z.ltb_spec timestamp FILETIME_LIMIT).
    + rewrite (proj2 (Z.leb_gt FILETIME_LIMIT timestamp)) by lia.
      cbn [bind]. destruct (_ <? 24 + 4); reflexivity.
    + rewrite (proj2 (Z.leb_le FILETIME_LIMIT timestamp)) by lia.
      reflexivity.
Qed.

Lemma land_0x20_testbit (x : Z) :
  negb (Z.land x 0x20 =? 0) = Z.testbit x 5.
Proof.
  assert (E : Z.land x 0x20 = if Z.testbit x 5 then 0x20 else 0).
  { apply Z.bits_inj'. intros n Hn. rewrite Z.land_spec.
    change 0x20 with (2 ^ 5). rewrite Z.pow2_bits_eqb by lia.
    destruct (Z.eqb_spec 5 n) as [<-|Hne].
    - destruct (Z.testbit x 5); [|now rewrite Z.bits_0].
      now rewrite Z.pow2_bits_eqb by lia.
    - rewrite andb_false_r.
      destruct (Z.testbit x 5); [|now rewrite Z.bits_0].
      rewrite Z.pow2_bits_eqb by lia. symmetry. now apply Z.eqb_neq. }
  rewrite E. destruct (Z.testbit x 5); reflexivity.
Qed.

Lemma password_policy_of_bit (account_flags : Z) :
  password_policy_of account_flags
  = if Z.testbit account_flags 5 then lit "No Password Required"
    else lit "Password Required".
Proof. unfold password_policy_of. now rewrite land_0x20_testbit. Qed.

(** ** Text: UTF-16LE and [strip] *)

Lemma byte_val_byte_of_Z (z : Z) : byte_val (byte_of_Z z) = z mod 256.
Proof.
  unfold byte_val, byte_of_Z.
  assert (Hm : 0 <= z mod 256 < 256) by (apply Z.mod_pos_bound; lia).
  destruct (Byte.of_N (Z.to_N (z mod 256))) as [b|] eqn:E.
  - apply Byte.to_of_N in E. rewrite E. apply Z2N.id. lia.
  - apply Byte.of_N_None_iff in E. lia.
Qed.

Lemma length_encode_utf16le (s : str) :
  length (encode_utf16le s) = (2 * length s)%nat.
Proof.
  induction s as [| c s IH]; cbn [encode_utf16le flat_map length app] in *;
    [reflexivity|].
  unfold encode_utf16le in IH. lia.
Qed.

Lemma decode_encode_printable (s : str) :
  Forall printable_ascii s -> decode_utf16le_replace (encode_utf16le s) = s.
Proof.
  induction 1 as [| c s Hc _ IH]; [reflexivity|].
  unfold printable_ascii in Hc.
  cbn [encode_utf16le flat_map app decode_utf16le_replace].
  rewrite !byte_val_byte_of_Z.
  replace (c mod 256 + 256 * ((c / 256) mod 256)) with c by div_lia.
  unfold is_surrogate.
  rewrite (proj2 (Z.leb_gt 0xD800 c)) by lia. cbn [andb negb].
  f_equal. exact IH.
Qed.

Lemma lstrip_id (s : str) : isspace (hd 0x41 s) = false -> lstrip s = s.
Proof. destruct s as [| c s]; cbn [hd lstrip]; [reflexivity|]. now intros ->. Qed.

Lemma strip_id (s : str) :
  isspace (hd 0x41 s) = false -> isspace (last s 0x41) = false -> strip s = s.
Proof.
  intros Hh Hl. unfold strip, rstrip. rewrite (lstrip_id s Hh).
  rewrite lstrip_id; [apply rev_involutive|].
  destruct s as [| c s] using rev_ind; [reflexivity|].
  rewrite rev_app_distr. cbn [rev app hd]. now rewrite last_last in Hl.
Qed.

(** [lstrip] removes a prefix of whitespace. *)
Lemma lstrip_suffix (s : str) :
  exists p, s = p ++ lstrip s /\ Forall (fun c => isspace c = true) p.
Proof.
  induction s as [| c s (p & E & Hp)]; [now exists []|].
  cbn [lstrip]. destruct (isspace c) eqn:Hc.
  - exists (c :: p). split; [cbn; now f_equal | now constructor].
  - now exists [].
Qed.

Lemma lstrip_hd (s : str) : isspace (hd 0 (lstrip s)) = false.
Proof.
  induction s as [| c s IH]; [reflexivity|].
  cbn [lstrip]. destruct (isspace c) eqn:Hc; [exact IH | exact Hc].
Qed.

Lemma hd_rev_last (s : str) : hd 0 (rev s) = last s 0.
Proof.
  destruct s as [| c s] using rev_ind; [reflexivity|].
  now rewrite rev_app_distr, last_last.
Qed.

Lemma last_app_nonempty (p l : str) :
  l <> [] -> last (p ++ l) 0 = last l 0.
Proof.
  intros Hl. induction p as [| c p IH]; [reflexivity|].
  cbn [app last]. destruct (p ++ l) eqn:E; [|exact IH].
  apply app_eq_nil in E. now destruct E.
Qed.

(** A stripped text has whitespace at neither end. *)
Lemma strip_trimmed (s : str) :
  isspace (hd 0 (strip s)) = false /\ isspace (last (strip s) 0) = false.
Proof.
  unfold strip, rstrip.
  set (t := lstrip s).
  assert (Ht : isspace (hd 0 t) = false) by apply lstrip_hd.
  split.
  - rewrite hd_rev_last.
    destruct (lstrip_suffix (rev t)) as (p & E & _).
    destruct (lstrip (rev t)) as [| c u] eqn:Hu; [reflexivity|].
    assert (Hlast : last (c :: u) 0 = last (rev t) 0).
    { rewrite E. symmetry. apply last_app_nonempty. discriminate. }
    rewrite Hlast, <- hd_rev_last, rev_involutive. exact Ht.
  - rewrite <- hd_rev_last, rev_involutive. apply lstrip_hd.
Qed.

(** What [strip] removes is whitespace, at the two ends. *)
Lemma strip_decompose (s : str) :
  exists p q,
    s = p ++ strip s ++ q
    /\ Forall (fun c => isspace c = true) p
    /\ Forall (fun c => isspace c = true) q.
Proof.
  destruct (lstrip_suffix s) as (p & Ep & Hp).
  destruct (lstrip_suffix (rev (lstrip s))) as (q & Eq & Hq).
  exists p, (rev q). repeat split; [|exact Hp|now apply Forall_rev].
  unfold strip, rstrip. rewrite <- rev_app_distr, <- Eq, rev_involutive.
  exact Ep.
Qed.

(** Among printable ASCII characters the space is the only whitespace. *)
Lemma printable_space (c : Z) :
  printable_ascii c -> (isspace c = true <-> c = 0x20).
Proof.
  unfold printable_ascii. intros Hc. split; [|now intros ->].
  intros Hs. destruct (Z.eq_dec c 0x20) as [|Hne]; [assumption|].
  exfalso. revert Hs. unfold isspace.
  rewrite (proj2 (Z.leb_gt c 0x0D)), (proj2 (Z.leb_gt c 0x20)),
    (proj2 (Z.leb_gt 0x2000 c)) by lia.
  rewrite !(fun k => proj2 (Z.eqb_neq c k)) by lia.
  now rewrite !andb_false_r.
Qed.

Lemma printable_spaces (p : str) :
  Forall printable_ascii p -> Forall (fun c => isspace c = true) p ->
  p = repeat 0x20 (length p).
Proof.
  intros Hp Hs. apply Forall_eq_repeat.
  rewrite Forall_forall in *. intros c Hc. symmetry.
  apply (printable_space c (Hp c Hc)), Hs, Hc.
Qed.

(** ** The username decoder: the claims *)

(** C2: when the 16-bit value at 0x0C is the character count of a
    printable-ASCII text [s], the 32-bit value at 0x10 is an offset [o], and
    the bytes at [o] inside the blob are the UTF-16LE encoding of [s], the
    username decoder returns [s] without its leading and trailing spaces:
    [s] is some spaces, then the returned text, then some spaces, and the
    returned text neither starts nor ends with a space.  A text that neither
    starts nor ends with a space comes back unchanged, with all its
    characters. *)
Theorem decode_username_well_formed (v_blob : bytes) (s : str) (o : Z) :
  0x14 <= Z.of_nat (length v_blob) ->
  le_uint (slice v_blob 0x0C 0x0E) = Z.of_nat (length s) ->
  le_uint (slice v_blob 0x10 0x14) = o ->
  o + 2 * Z.of_nat (length s) <= Z.of_nat (length v_blob) ->
  firstn (2 * length s) (skipn (Z.to_nat o) v_blob) = encode_utf16le s ->
  Forall printable_ascii s ->
  (exists (a b : nat) (core : str),
      s = repeat 0x20 a ++ core ++ repeat 0x20 b
      /\ hd 0x41 core <> 0x20 /\ last core 0x41 <> 0x20
      /\ decode_username v_blob = core)
  /\ (hd 0x41 s <> 0x20 -> last s 0x41 <> 0x20 ->
      decode_username v_blob = s
      /\ length (decode_username v_blob) = length s).
Proof.
  intros Hlen Hn Ho Hin Hdata Hs.
  assert (E : decode_username v_blob = strip s).
  { rewrite decode_username_cases.
    rewrite (proj2 (Z.ltb_ge _ 0x0E)) by lia.
    rewrite (proj2 (Z.ltb_ge _ 0x14)) by lia.
    rewrite username_of_present, Hn, Ho.
    replace (Z.to_nat (Z.of_nat (length s) * 2)) with (2 * length s)%nat by lia.
    now rewrite Hdata, decode_encode_printable. }
  split.
  - destruct (strip_decompose s) as (p & q & Es & Hp & Hq).
    destruct (strip_trimmed s) as [Hh Hl].
    rewrite Es in Hs. apply Forall_app in Hs as [Hpp Hs].
    apply Forall_app in Hs as [_ Hqp].
    exists (length p), (length q), (strip s).
    rewrite <- (printable_spaces p Hpp Hp), <- (printable_spaces q Hqp Hq).
    repeat split; [exact Es | | | exact E].
    + destruct (strip s) as [| c t]; [cbn; lia|].
      cbn [hd] in *. intros ->. discriminate Hh.
    + destruct (strip s) as [| c t] using rev_ind; [cbn; lia|].
      rewrite last_last in *. intros ->. discriminate Hl.
  - intros Hh Hl. rewrite E.
    assert (Hd : printable_ascii 0x41) by (unfold printable_ascii; lia).
    assert (Hsp : forall c, printable_ascii c -> c <> 0x20 -> isspace c = false).
    { intros c Hc Hne. destruct (isspace c) eqn:Ec; [|reflexivity].
      now apply (printable_space c Hc) in Ec. }
    rewrite strip_id; [split; reflexivity| |].
    + apply Hsp; [|exact Hh]. destruct Hs; [exact Hd|assumption].
    + apply Hsp; [|exact Hl].
      destruct s as [| c s] using rev_ind; [exact Hd|].
      rewrite last_last. apply Forall_app in Hs. destruct Hs as [_ Hc].
      now inversion Hc.
Qed.

Lemma decode_username_well_formed_witness :
  (0x14 <= Z.of_nat (length spaced_jane_v)
   /\ Forall printable_ascii (lit "  Jane "))
  /\ exists (a b : nat) (core : str),
       lit "  Jane " = repeat 0x20 a ++ core ++ repeat 0x20 b
       /\ hd 0x41 core <> 0x20 /\ last core 0x41 <> 0x20
       /\ decode_username spaced_jane_v = core.
Proof.
  assert (Hs : Forall printable_ascii (lit "  Jane ")).
  { repeat constructor; vm_compute; discriminate. }
  split; [split; [vm_compute; discriminate | exact Hs]|].
  refine (proj1 (decode_username_well_formed spaced_jane_v (lit "  Jane ") 0x20
                   _ _ _ _ _ Hs)).
  - vm_compute; discriminate.
  - reflexivity.
  - reflexivity.
  - vm_compute; discriminate.
  - reflexivity.
Defined.

(** The blob of the end-to-end scenario, and one with spaces around the
    name. *)
Example jane_is_decoded :
  decode_username jane_v = lit "Jane"
  /\ decode_username spaced_jane_v = lit "Jane".
Proof. split; reflexivity. Qed.

(** C10: with both preamble fields readable (at least 0x14 bytes), the
    username decoder takes its normal path whatever the declared range:
    the text is decoded from the bytes present from the offset on, at most
    twice the declared length of them; a range past the end of the blob
    gives the text of the remaining bytes, and an offset at or past the end
    gives the empty text. *)
Theorem decode_username_clamps (v_blob : bytes) :
  0x14 <= Z.of_nat (length v_blob) ->
  let n := le_uint (slice v_blob 0x0C 0x0E) in
  let o := le_uint (slice v_blob 0x10 0x14) in
  let present := firstn (Z.to_nat (n * 2)) (skipn (Z.to_nat o) v_blob) in
  decode_username_try v_blob = Ok (strip (decode_utf16le_replace present))
  /\ decode_username v_blob = strip (decode_utf16le_replace present)
  /\ (Z.of_nat (length v_blob) < o + n * 2 ->
      present = skipn (Z.to_nat o) v_blob)
  /\ (Z.of_nat (length v_blob) <= o -> decode_username v_blob = []).
Proof.
  intros Hlen n o present.
  assert (Htry : decode_username_try v_blob
                 = Ok (strip (decode_utf16le_replace present))).
  { rewrite decode_username_try_cases.
    rewrite (proj2 (Z.ltb_ge _ 0x0E)) by lia.
    rewrite (proj2 (Z.ltb_ge _ 0x14)) by lia.
    now rewrite username_of_present. }
  assert (Hdec : decode_username v_blob
                 = strip (decode_utf16le_replace present)).
  { unfold decode_username. now rewrite Htry. }
  pose proof (le_uint_bounds (slice v_blob 0x0C 0x0E)) as Hn.
  pose proof (le_uint_bounds (slice v_blob 0x10 0x14)) as Ho.
  fold n in Hn. fold o in Ho.
  repeat split; try assumption.
  - intros Hout. subst present. apply firstn_all2. rewrite length_skipn. lia.
  - intros Hpast. rewrite Hdec. subst present.
    rewrite skipn_all2 by lia. now rewrite firstn_nil.
Qed.

Lemma decode_username_clamps_witness :
  0x14 <= Z.of_nat (length (firstn 34 jane_v))
  /\ decode_username_try (firstn 34 jane_v) = Ok (lit "J").
Proof.
  split; [vm_compute; discriminate|].
  refine (proj1 (decode_username_clamps (firstn 34 jane_v) _)).
  vm_compute; discriminate.
Defined.

(** C1, as the claim states it, fails: the blob declares four characters at
    offset 0x20 but ends after the first of them, and the decoder returns
    that one character instead of an error. *)
Lemma out_of_range_username_is_not_an_error :
  let v_blob := firstn 34 jane_v in
  let n := le_uint (slice v_blob 0x0C 0x0E) in
  let o := le_uint (slice v_blob 0x10 0x14) in
  Z.of_nat (length v_blob) < o + 2 * n
  /\ decode_username_try v_blob = Ok (lit "J")
  /\ decode_username v_blob = lit "J".
Proof. repeat split. Qed.

(** C1, amended: a [V] blob too short for its preamble fields (fewer than
    0x14 bytes) and an [F] blob too short for its fixed fields (fewer than
    0x1C bytes) each decode to one in-band error text and nothing else;
    a [V] blob with a readable preamble never decodes to an error, whatever
    range it declares: its username is decoded from the bytes present from
    the offset on, at most twice the declared length of them, which are all
    the remaining bytes when the declared range passes the end. *)
Theorem short_blobs_give_one_error (v_short f_short v_blob : bytes) :
  Z.of_nat (length v_short) < 0x14 ->
  Z.of_nat (length f_short) < 0x1C ->
  0x14 <= Z.of_nat (length v_blob) ->
  (exists e, decode_username_try v_short = Raise e
             /\ decode_username v_short
                = lit "Error decoding username: " ++ exn_str e)
  /\ (exists e, decode_f_value_try f_short = Raise e
                /\ decode_f_value f_short
                   = (lit "Unknown", lit "Error: " ++ exn_str e))
  /\ (let n := le_uint (slice v_blob 0x0C 0x0E) in
      let o := le_uint (slice v_blob 0x10 0x14) in
      let present := firstn (Z.to_nat (n * 2)) (skipn (Z.to_nat o) v_blob) in
      decode_username_try v_blob = Ok (strip (decode_utf16le_replace present))
      /\ decode_username v_blob = strip (decode_utf16le_replace present)
      /\ (Z.of_nat (length v_blob) < o + n * 2 ->
          present = skipn (Z.to_nat o) v_blob)).
Proof.
  intros Hv Hf Hlen. split; [|split].
  - unfold decode_username. rewrite decode_username_try_cases.
    destruct (_ <? 0x0E); [eexists; split; reflexivity|].
    rewrite (proj2 (Z.ltb_lt _ 0x14)) by lia. eexists; split; reflexivity.
  - unfold decode_f_value. rewrite decode_f_value_try_cases.
    destruct (_ <? 16); [eexists; split; reflexivity|]. cbv zeta.
    destruct (_ <=? _); [eexists; split; reflexivity|].
    rewrite (proj2 (Z.ltb_lt _ 28)) by lia. eexists; split; reflexivity.
  - intros n o present.
    assert (Htry : decode_username_try v_blob
                   = Ok (strip (decode_utf16le_replace present))).
    { rewrite decode_username_try_cases.
      rewrite (proj2 (Z.ltb_ge _ 0x0E)) by lia.
      rewrite (proj2 (Z.ltb_ge _ 0x14)) by lia.
      now rewrite username_of_present. }
    split; [exact Htry|]. split; [unfold decode_username; now rewrite Htry|].
    intros Hout. subst present.
    pose proof (le_uint_bounds (slice v_blob 0x10 0x14)) as Ho. fold o in Ho.
    apply firstn_all2. rewrite length_skipn. lia.
Qed.

Lemma short_blobs_give_one_error_witness :
  (Z.of_nat (length (firstn 19 jane_v)) < 0x14
   /\ Z.of_nat (length (repeat x00 27)) < 0x1C
   /\ 0x14 <= Z.of_nat (length (firstn 34 jane_v)))
  /\ (exists e, decode_username_try (firstn 19 jane_v) = Raise e
                /\ decode_username (firstn 19 jane_v)
                   = lit "Error decoding username: " ++ exn_str e)
  /\ decode_username (firstn 34 jane_v)
     = strip (decode_utf16le_replace (skipn 32 (firstn 34 jane_v))).
Proof.
  split; [split; [reflexivity | split; [reflexivity | vm_compute; discriminate]]|].
  pose proof (short_blobs_give_one_error (firstn 19 jane_v)
                (repeat x00 27) (firstn 34 jane_v)) as H.
  destruct H as (H1 & _ & H3).
  - reflexivity.
  - reflexivity.
  - vm_compute; discriminate.
  - split; [exact H1|]. exact (proj1 (proj2 H3)).
Defined.

(** ** The [F] decoder: the claims *)

(** C3: for an [F] blob holding both fixed fields (at least 0x1C bytes),
    the FILETIME at 0x08 decides the last-login text: zero gives "Never";
    a non-zero value below the limit gives the calendar time, of a year from
    1601 to 9999, that lies [value / 10] microseconds after
    1601-01-01T00:00:00, written as its decimal digits in the layout
    YYYY-MM-DD HH:MM:SS (45 is the hyphen, 32 the space, 58 the colon, 48 the
    digit zero); a value at or past the limit (a date after year 9999) is
    reported as the error pair and no date is rendered. *)
Theorem last_login_from_filetime (f_blob : bytes) :
  0x1C <= Z.of_nat (length f_blob) ->
  let timestamp := le_uint (slice f_blob 8 16) in
  (timestamp = 0 -> fst (decode_f_value f_blob) = lit "Never")
  /\ (timestamp <> 0 -> timestamp < FILETIME_LIMIT ->
      exists dt,
        valid_datetime dt /\ 1601 <= year dt
        /\ microseconds_since_year1 dt
           = microseconds_since_year1 epoch_1601 + timestamp / 10
        /\ fst (decode_f_value f_blob)
           = [48 + year dt / 1000 mod 10; 48 + year dt / 100 mod 10;
              48 + year dt / 10 mod 10; 48 + year dt mod 10; 45;
              48 + month dt / 10 mod 10; 48 + month dt mod 10; 45;
              48 + day dt / 10 mod 10; 48 + day dt mod 10; 32;
              48 + hour dt / 10 mod 10; 48 + hour dt mod 10; 58;
              48 + minute dt / 10 mod 10; 48 + minute dt mod 10; 58;
              48 + second dt / 10 mod 10; 48 + second dt mod 10])
  /\ (FILETIME_LIMIT <= timestamp ->
      decode_f_value_try f_blob
      = Raise (OverflowError (lit "date value out of range"))
      /\ decode_f_value f_blob
         = (lit "Unknown", lit "Error: date value out of range")).
Proof.
  intros Hlen timestamp.
  pose proof (decode_f_value_try_cases f_blob) as Ht.
  rewrite (proj2 (Z.ltb_ge _ 16)) in Ht by lia.
  rewrite (proj2 (Z.ltb_ge _ 28)) in Ht by lia.
  cbv zeta in Ht. fold timestamp in Ht.
  pose proof (le_uint_bounds (slice f_blob 8 16)) as Hb. fold timestamp in Hb.
  unfold decode_f_value. split; [|split].
  - intros Hz. rewrite Ht, Hz. reflexivity.
  - intros Hnz Hlt.
    rewrite (proj2 (Z.leb_gt _ _) Hlt) in Ht.
    destruct (datetime_of_filetime_spec timestamp) as (Hvalid & Hyear & Hus);
      [lia|].
    exists (datetime_of_filetime timestamp).
    split; [exact Hvalid|]. split; [exact Hyear|]. split; [exact Hus|].
    rewrite Ht. unfold last_login_text.
    now rewrite (proj2 (Z.eqb_neq _ _) Hnz).
  - intros Hge.
    rewrite (proj2 (Z.leb_le _ _) Hge) in Ht. rewrite Ht. now split.
Qed.

Lemma last_login_from_filetime_witness :
  0x1C <= Z.of_nat (length sample_f)
  /\ exists dt,
       valid_datetime dt /\ 1601 <= year dt
       /\ microseconds_since_year1 dt
          = microseconds_since_year1 epoch_1601 + 129021310000000000 / 10
       /\ fst (decode_f_value sample_f)
          = [48 + year dt / 1000 mod 10; 48 + year dt / 100 mod 10;
             48 + year dt / 10 mod 10; 48 + year dt mod 10; 45;
             48 + month dt / 10 mod 10; 48 + month dt mod 10; 45;
             48 + day dt / 10 mod 10; 48 + day dt mod 10; 32;
             48 + hour dt / 10 mod 10; 48 + hour dt mod 10; 58;
             48 + minute dt / 10 mod 10; 48 + minute dt mod 10; 58;
             48 + second dt / 10 mod 10; 48 + second dt mod 10].
Proof.
  split; [vm_compute; discriminate|].
  refine (proj1 (proj2 (last_login_from_filetime sample_f _)) _ _).
  - vm_compute; discriminate.
  - vm_compute; discriminate.
  - reflexivity.
Defined.

(** The FILETIME 129021310000000000 decodes to a fixed date and time. *)
Example sample_f_last_login :
  decode_f_value sample_f = (lit "2009-11-08 05:16:40", lit "Password Required").
Proof. reflexivity. Qed.

(** C4, as the claim states it, fails: the flags word is 0x00000220, bit
    0x20 set, in a blob of 28 bytes, but the FILETIME converts to a date
    after year 9999 and the policy slot holds that error instead. *)
Lemma policy_lost_on_date_overflow :
  let f_blob := mk_f (repeat xff 8) [x20; x02; x00; x00] in
  Z.of_nat (length f_blob) = 0x1C
  /\ le_uint (slice f_blob 24 28) = 0x220
  /\ Z.testbit (le_uint (slice f_blob 24 28)) 5 = true
  /\ decode_f_value f_blob
     = (lit "Unknown", lit "Error: date value out of range").
Proof. repeat split. Qed.

(** C4, amended: for an [F] blob of at least 0x1C bytes, the flags are the
    four bytes at offset 0x18 read little-endian.  When the FILETIME is below
    the limit (zero, or a date up to year 9999), the password policy is
    decided by bit 0x20 of that word alone; when the FILETIME is at or past
    the limit, the policy slot holds the text of the date error instead,
    whatever the flags are. *)
Theorem password_policy_from_flags (f_blob : bytes) :
  0x1C <= Z.of_nat (length f_blob) ->
  let timestamp := le_uint (slice f_blob 8 16) in
  let account_flags := le_uint (firstn 4 (skipn 24 f_blob)) in
  (timestamp < FILETIME_LIMIT ->
   snd (decode_f_value f_blob)
   = if Z.testbit account_flags 5 then lit "No Password Required"
     else lit "Password Required")
  /\ (FILETIME_LIMIT <= timestamp ->
      snd (decode_f_value f_blob) = lit "Error: date value out of range").
Proof.
  intros Hlen timestamp account_flags.
  unfold decode_f_value. rewrite decode_f_value_try_cases.
  rewrite (proj2 (Z.ltb_ge _ 16)) by lia. cbv zeta. fold timestamp.
  split.
  - intros Hts. rewrite (proj2 (Z.leb_gt _ _) Hts).
    rewrite (proj2 (Z.ltb_ge _ 28)) by lia. cbn [snd].
    rewrite password_policy_of_bit. subst account_flags.
    change 28 with (24 + 4). now rewrite slice_firstn_skipn by lia.
  - intros Hts. now rewrite (proj2 (Z.leb_le _ _) Hts).
Qed.

Lemma password_policy_from_flags_witness :
  (0x1C <= Z.of_nat (length (mk_f (repeat x00 8) [x20; x02; x00; x00]))
   /\ le_uint (slice (mk_f (repeat x00 8) [x20; x02; x00; x00]) 8 16)
      < FILETIME_LIMIT)
  /\ snd (decode_f_value (mk_f (repeat x00 8) [x20; x02; x00; x00]))
     = lit "No Password Required".
Proof.
  split; [split; [vm_compute; discriminate | reflexivity]|].
  refine (proj1 (password_policy_from_flags
                   (mk_f (repeat x00 8) [x20; x02; x00; x00]) _) _).
  - vm_compute; discriminate.
  - reflexivity.
Defined.

(** Flags 0x00000220 and 0x00000200 with a zero FILETIME. *)
Example flags_0x220_and_0x200 :
  decode_f_value (mk_f (repeat x00 8) [x20; x02; x00; x00])
  = (lit "Never", lit "No Password Required")
  /\ decode_f_value (mk_f (repeat x00 8) [x00; x02; x00; x00])
     = (lit "Never", lit "Password Required").
Proof. split; reflexivity. Qed.

(** C5, as the claim states it, fails: in a blob of 16 bytes the FILETIME
    is readable and zero, which alone would give "Never", but the flags read
    fails and the last-login slot holds "Unknown". *)
Lemma flags_failure_blocks_last_login :
  let f_blob := repeat x00 16 in
  unpack_Q (slice f_blob 8 16) = Ok 0
  /\ last_login_of 0 = Ok (lit "Never")
  /\ decode_f_value f_blob
     = (lit "Unknown", lit "Error: unpack requires a buffer of 4 bytes").
Proof. repeat split. Qed.

(** C5, amended: the timestamp and the flags are decoded in one guarded
    sequence, timestamp first.  The pair of texts is returned only when the
    FILETIME read, its conversion and the flags read all succeed; otherwise
    the result is ("Unknown", "Error: ...") with the message of the first
    step that failed, and neither field is reported. *)
Theorem f_fields_all_or_nothing (f_blob : bytes) :
  decode_f_value f_blob
  = if Z.of_nat (length f_blob) <? 0x10
    then (lit "Unknown", lit "Error: unpack requires a buffer of 8 bytes")
    else if FILETIME_LIMIT <=? le_uint (slice f_blob 8 16)
    then (lit "Unknown", lit "Error: date value out of range")
    else if Z.of_nat (length f_blob) <? 0x1C
    then (lit "Unknown", lit "Error: unpack requires a buffer of 4 bytes")
    else (last_login_text (le_uint (slice f_blob 8 16)),
          password_policy_of (le_uint (slice f_blob 24 28))).
Proof.
  unfold decode_f_value. rewrite decode_f_value_try_cases.
  change (_ <? 0x10) with (Z.of_nat (length f_blob) <? 16).
  change (_ <? 0x1C) with (Z.of_nat (length f_blob) <? 28).
  destruct (_ <? 16); [reflexivity|]. cbv zeta.
  destruct (_ <=? _); [reflexivity|]. destruct (_ <? 28); reflexivity.
Qed.

(** ** The loop over subkeys *)

Lemma str_eqb_eq (a b : str) : str_eqb a b = true <-> a = b.
Proof.
  unfold str_eqb. destruct (list_eq_dec Z.eq_dec a b); split; congruence.
Qed.

Lemma str_eqb_neq (a b : str) : str_eqb a b = false <-> a <> b.
Proof.
  unfold str_eqb. destruct (list_eq_dec Z.eq_dec a b); split; congruence.
Qed.

(** An iteration only appends to what was printed before. *)
Lemma parse_subkey_app (out : list str) (sk : subkey) :
  parse_subkey out sk = out ++ parse_subkey [] sk.
Proof.
  unfold parse_subkey.
  destruct (str_eqb (name sk) (lit "Names")); [now rewrite app_nil_r|].
  destruct (value sk (lit "V")) as [v_val|e]; cbn [bind].
  - destruct (value sk (lit "F")) as [f_val|e]; cbn [bind].
    + destruct (decode_f_value f_val). now rewrite <- !app_assoc.
    + now rewrite <- !app_assoc.
  - now rewrite <- !app_assoc.
Qed.

Lemma fold_parse_subkey (subkeys : list subkey) (out : list str) :
  fold_left parse_subkey subkeys out
  = out ++ flat_map (parse_subkey []) subkeys.
Proof.
  revert out. induction subkeys as [| sk subkeys IH]; intros out.
  - cbn. now rewrite app_nil_r.
  - cbn [fold_left flat_map]. rewrite IH, parse_subkey_app. symmetry. apply app_assoc.
Qed.

Lemma parse_sam_hive_blocks (subkeys : list subkey) :
  parse_sam_hive (UsersKey subkeys) = flat_map (parse_subkey []) subkeys.
Proof. cbn [parse_sam_hive]. now rewrite fold_parse_subkey. Qed.

Lemma parse_subkey_names (sk : subkey) :
  name sk = lit "Names" -> parse_subkey [] sk = [].
Proof.
  intros H. unfold parse_subkey. now rewrite (proj2 (str_eqb_eq _ _) H).
Qed.

Lemma parse_subkey_account (sk : subkey) :
  name sk <> lit "Names" ->
  parse_subkey [] sk
  = (NL ++ lit "User RID: " ++ name sk)
    :: match value sk (lit "V"), value sk (lit "F") with
       | Ok v_val, Ok f_val =>
           [lit "Username: " ++ decode_username v_val;
            lit "Last Login: " ++ fst (decode_f_value f_val);
            lit "Password Policy: " ++ snd (decode_f_value f_val)]
       | Ok _, Raise e | Raise e, _ =>
           [lit "Error processing subkey " ++ name sk ++ lit ": " ++ exn_str e]
       end.
Proof.
  intros H. unfold parse_subkey. rewrite (proj2 (str_eqb_neq _ _) H).
  destruct (value sk (lit "V")) as [v_val|e]; cbn [bind]; [|reflexivity].
  destruct (value sk (lit "F")) as [f_val|e]; cbn [bind]; [|reflexivity].
  now destruct (decode_f_value f_val).
Qed.

(** C6, as the claim states it, fails: the subkey has a [V] value that
    decodes to "Jane" and no [F] value; the output holds the header line and
    one line with the library's error, and no username line. *)
Lemma missing_f_skips_both_decoders :
  value subkey_without_f (lit "V") = Ok jane_v
  /\ decode_username jane_v = lit "Jane"
  /\ parse_sam_hive (UsersKey [subkey_without_f])
     = [NL ++ lit "User RID: 1001";
        lit "Error processing subkey 1001: value not found: F"].
Proof. repeat split. Qed.

(** C6, amended: the output is the concatenation, in enumeration order, of
    one block per subkey, and for every subkey not named "Names" the block
    is its "User RID" line followed either by the three decoded lines, when
    both [V] and [F] are present, or by the single line "Error processing
    subkey ..." carrying the library's error for the first missing value,
    in which case neither decoder runs. *)
Theorem one_block_per_account_subkey (subkeys : list subkey) (sk : subkey) :
  name sk <> lit "Names" ->
  parse_sam_hive (UsersKey subkeys) = flat_map (parse_subkey []) subkeys
  /\ exists body,
       parse_subkey [] sk = (NL ++ lit "User RID: " ++ name sk) :: body
       /\ match value sk (lit "V"), value sk (lit "F") with
          | Ok v_val, Ok f_val =>
              body = [lit "Username: " ++ decode_username v_val;
                      lit "Last Login: " ++ fst (decode_f_value f_val);
                      lit "Password Policy: " ++ snd (decode_f_value f_val)]
          | Ok _, Raise e | Raise e, _ =>
              body = [lit "Error processing subkey " ++ name sk ++ lit ": "
                      ++ exn_str e]
          end.
Proof.
  intros H. split; [apply parse_sam_hive_blocks|].
  rewrite (parse_subkey_account sk H). eexists. split; [reflexivity|].
  destruct (value sk (lit "V")); destruct (value sk (lit "F")); reflexivity.
Qed.

Lemma one_block_per_account_subkey_witness :
  name subkey_1001 <> lit "Names"
  /\ parse_sam_hive (UsersKey [subkey_1001; subkey_without_f])
     = flat_map (parse_subkey []) [subkey_1001; subkey_without_f].
Proof.
  split; [vm_compute; discriminate|].
  refine (proj1 (one_block_per_account_subkey
                   [subkey_1001; subkey_without_f] subkey_1001 _)).
  vm_compute; discriminate.
Defined.

(** The end-to-end scenario: subkey "1001", "Jane", zero FILETIME, flags
    0x00000020. *)
Example scenario_1001 :
  parse_sam_hive (UsersKey [subkey_names; subkey_1001])
  = [NL ++ lit "User RID: 1001"; lit "Username: Jane";
     lit "Last Login: Never"; lit "Password Policy: No Password Required"].
Proof. reflexivity. Qed.

(** C7: a subkey named "Names" adds nothing to the output wherever it
    stands in the enumeration and whatever its values are, and a subkey
    with any other name adds its block, which starts with its "User RID"
    line, at its place. *)
Theorem names_subkey_is_skipped (before after : list subkey)
    (sk other : subkey) :
  name sk = lit "Names" -> name other <> lit "Names" ->
  parse_sam_hive (UsersKey (before ++ sk :: after))
  = parse_sam_hive (UsersKey (before ++ after))
  /\ parse_sam_hive (UsersKey (before ++ other :: after))
     = parse_sam_hive (UsersKey before)
       ++ ((NL ++ lit "User RID: " ++ name other) :: tl (parse_subkey [] other))
       ++ parse_sam_hive (UsersKey after).
Proof.
  intros Hsk Hother. rewrite !parse_sam_hive_blocks, !flat_map_app.
  cbn [flat_map]. rewrite (parse_subkey_names sk Hsk).
  split; [reflexivity|].
  now rewrite (parse_subkey_account other Hother).
Qed.

Lemma names_subkey_is_skipped_witness :
  (name subkey_names = lit "Names" /\ name subkey_1002 <> lit "Names")
  /\ parse_sam_hive (UsersKey ([subkey_1001] ++ subkey_names :: [subkey_1002]))
     = parse_sam_hive (UsersKey ([subkey_1001] ++ [subkey_1002])).
Proof.
  split; [split; [reflexivity | vm_compute; discriminate]|].
  refine (proj1 (names_subkey_is_skipped [subkey_1001] [subkey_1002]
                   subkey_names subkey_1002 _ _)).
  - reflexivity.
  - vm_compute; discriminate.
Defined.

(** * Further properties of the decoders *)

(** ** The decoded text *)

Lemma length_decode_utf16le (b : bytes) :
  (2 * length (decode_utf16le_replace b) <= length b + 1)%nat.
Proof.
  remember (length b) as k eqn:Hk.
  revert b Hk. induction k as [k IH] using (well_founded_induction lt_wf).
  intros b ->. destruct b as [| lo [| hi rest]]; [cbn; lia | cbn; lia |].
  cbn [decode_utf16le_replace]. cbv zeta.
  assert (Hrest : (2 * length (decode_utf16le_replace rest)
                   <= length rest + 1)%nat).
  { apply (IH (length rest)); [cbn [length]; lia | reflexivity]. }
  destruct (negb (is_surrogate _)); [cbn [length] in *; lia|].
  destruct (negb (is_high_surrogate _)); [cbn [length] in *; lia|].
  destruct rest as [| lo2 [| hi2 rest']]; [cbn; lia | cbn; lia |].
  destruct (is_low_surrogate _); [|cbn [length] in *; lia].
  assert (Hrest' : (2 * length (decode_utf16le_replace rest')
                    <= length rest' + 1)%nat).
  { apply (IH (length rest')); [cbn [length]; lia | reflexivity]. }
  cbn [length] in *. lia.
Qed.

Lemma length_lstrip (s : str) : (length (lstrip s) <= length s)%nat.
Proof.
  destruct (lstrip_suffix s) as (p & E & _).
  rewrite E at 2. rewrite length_app. lia.
Qed.

Lemma length_strip (s : str) : (length (strip s) <= length s)%nat.
Proof.
  unfold strip, rstrip. rewrite length_rev.
  etransitivity; [apply length_lstrip|]. rewrite length_rev.
  apply length_lstrip.
Qed.

Lemma Forall_lstrip (P : Z -> Prop) (s : str) :
  Forall P s -> Forall P (lstrip s).
Proof.
  intros H. destruct (lstrip_suffix s) as (p & E & _).
  rewrite E in H. now apply Forall_app in H.
Qed.

Lemma Forall_strip (P : Z -> Prop) (s : str) :
  Forall P s -> Forall P (strip s).
Proof.
  intros H. unfold strip, rstrip.
  apply Forall_rev, Forall_lstrip, Forall_rev, Forall_lstrip, H.
Qed.

Lemma byte_val_bounds (x : byte) : 0 <= byte_val x < 256.
Proof. unfold byte_val. pose proof (Byte.to_N_bounded x). lia. Qed.

Lemma join_surrogates_scalar (hi lo : Z) : scalar_value (join_surrogates hi lo).
Proof.
  unfold join_surrogates.
  set (a := Z.shiftl (Z.land hi 0x3FF) 10). set (b := Z.land lo 0x3FF).
  assert (Hm : forall x, 0 <= Z.land x 0x3FF < 1024).
  { intros x. change 0x3FF with (Z.ones 10). rewrite Z.land_ones by lia.
    apply Z.mod_pos_bound. reflexivity. }
  assert (Ha : 0 <= a < 2 ^ 20).
  { subst a. rewrite Z.shiftl_mul_pow2 by lia. specialize (Hm hi).
    change (2 ^ 10) with 1024. change (2 ^ 20) with 1048576. lia. }
  assert (Hb : 0 <= b < 2 ^ 20).
  { subst b. specialize (Hm lo). change (2 ^ 20) with 1048576. lia. }
  assert (Hor : 0 <= Z.lor a b < 2 ^ 20).
  { split; [apply Z.lor_nonneg; lia|].
    destruct (Z.eq_dec (Z.lor a b) 0) as [->|Hnz]; [reflexivity|].
    apply Z.log2_lt_pow2; [pose proof (proj2 (Z.lor_nonneg a b)); lia|].
    rewrite Z.log2_lor by lia.
    apply Z.max_lub_lt.
    - destruct (Z.eq_dec a 0) as [->|]; [reflexivity|].
      apply Z.log2_lt_pow2; lia.
    - destruct (Z.eq_dec b 0) as [->|]; [reflexivity|].
      apply Z.log2_lt_pow2; lia. }
  change (2 ^ 20) with 1048576 in Hor.
  unfold scalar_value, is_surrogate. split; [lia|].
  rewrite (proj2 (Z.leb_gt _ 0xDFFF)) by lia. apply andb_false_r.
Qed.

(** The lossy decoder yields scalar values only: a surrogate never
    reaches the text. *)
Lemma decode_utf16le_scalars (b : bytes) :
  Forall scalar_value (decode_utf16le_replace b).
Proof.
  assert (Hrep : scalar_value REPLACEMENT)
    by (split; [vm_compute; split; discriminate | reflexivity]).
  remember (length b) as k eqn:Hk.
  revert b Hk. induction k as [k IH] using (well_founded_induction lt_wf).
  intros b ->. destruct b as [| lo [| hi rest]];
    [constructor | now repeat constructor |].
  cbn [decode_utf16le_replace]. cbv zeta.
  assert (Hrest : Forall scalar_value (decode_utf16le_replace rest)).
  { apply (IH (length rest)); [cbn [length]; lia | reflexivity]. }
  pose proof (byte_val_bounds lo). pose proof (byte_val_bounds hi).
  destruct (is_surrogate _) eqn:Hs; cbn [negb].
  - destruct (negb (is_high_surrogate _)); [now constructor|].
    destruct rest as [| lo2 [| hi2 rest']];
      [now repeat constructor | now repeat constructor |].
    destruct (is_low_surrogate _); [|now constructor].
    constructor; [apply join_surrogates_scalar|].
    apply (IH (length rest')); [cbn [length]; lia | reflexivity].
  - constructor; [|exact Hrest]. split; [lia | exact Hs].
Qed.

(** ** The username: further properties *)

(** X1: with a readable preamble, the username has at most as many
    characters as the length declared at 0x0C, which is below 65536. *)
Theorem username_length_bounded (v_blob : bytes) :
  0x14 <= Z.of_nat (length v_blob) ->
  let n := le_uint (slice v_blob 0x0C 0x0E) in
  Z.of_nat (length (decode_username v_blob)) <= n /\ n <= 65535.
Proof.
  intros Hlen n.
  pose proof (le_uint_bounds (slice v_blob 0x0C 0x0E)) as Hn.
  pose proof (le_uint_bounds (slice v_blob 0x10 0x14)) as Ho.
  pose proof (length_slice v_blob 0x0C 0x0E ltac:(lia) ltac:(lia)) as L.
  replace (Z.of_nat (length (slice v_blob 0x0C 0x0E))) with 2 in Hn by lia.
  fold n in Hn. change (256 ^ 2) with 65536 in Hn.
  split; [|lia].
  rewrite decode_username_cases.
  rewrite (proj2 (Z.ltb_ge _ 0x0E)) by lia.
  rewrite (proj2 (Z.ltb_ge _ 0x14)) by lia.
  unfold username_of. fold n.
  set (o := le_uint (slice v_blob 0x10 0x14)) in *.
  pose proof (length_strip (decode_utf16le_replace (slice v_blob o (o + n * 2)))).
  pose proof (length_decode_utf16le (slice v_blob o (o + n * 2))).
  pose proof (length_slice v_blob o (o + n * 2) ltac:(lia) ltac:(lia)).
  lia.
Qed.

Lemma username_length_bounded_witness :
  0x14 <= Z.of_nat (length jane_v)
  /\ Z.of_nat (length (decode_username jane_v)) <= 4.
Proof.
  split; [vm_compute; discriminate|].
  refine (proj1 (username_length_bounded jane_v _)).
  vm_compute; discriminate.
Defined.

(** X2: whatever the blob, the text [decode_username] returns has no
    whitespace character at its start or at its end. *)
Theorem username_has_no_outer_whitespace (v_blob : bytes) :
  isspace (hd 0 (decode_username v_blob)) = false
  /\ isspace (last (decode_username v_blob) 0) = false.
Proof.
  rewrite decode_username_cases.
  destruct (_ <? 0x0E); [split; reflexivity|].
  destruct (_ <? 0x14); [split; reflexivity|].
  apply strip_trimmed.
Qed.

(** X3: whatever the blob, every character of the text [decode_username]
    returns is a Unicode scalar value: malformed UTF-16 never puts a
    surrogate code point into the username. *)
Theorem username_is_scalar_values (v_blob : bytes) :
  Forall scalar_value (decode_username v_blob).
Proof.
  assert (Hlit : forall s : str,
             forallb (fun c => (0 <=? c) && (c <=? 0x7F)) s = true ->
             Forall scalar_value s).
  { intros s Hs. apply Forall_forall. intros c Hc.
    rewrite forallb_forall in Hs. specialize (Hs c Hc).
    apply andb_true_iff in Hs. rewrite !Z.leb_le in Hs.
    unfold scalar_value, is_surrogate. split; [lia|].
    now rewrite (proj2 (Z.leb_gt 0xD800 c)) by lia. }
  rewrite decode_username_cases.
  destruct (_ <? 0x0E); [now apply Hlit|].
  destruct (_ <? 0x14); [now apply Hlit|].
  apply Forall_strip, decode_utf16le_scalars.
Qed.

(** A slice that ends inside the blob does not see bytes appended to it. *)
Lemma slice_app_inside (b extra : bytes) (i j : Z) :
  0 <= i -> 0 <= j <= Z.of_nat (length b) ->
  slice (b ++ extra) i j = slice b i j.
Proof.
  intros Hi Hj. unfold slice, adjust_index. rewrite length_app, Nat2Z.inj_add.
  destruct (Z.ltb_spec i 0); [lia|]. destruct (Z.ltb_spec j 0); [lia|].
  rewrite !(Z.min_l j) by lia.
  destruct (Z.le_gt_cases i (Z.of_nat (length b))) as [Hle|Hgt].
  - rewrite !(Z.min_l i) by lia.
    rewrite skipn_app, firstn_app, length_skipn.
    replace (Z.to_nat (j - i) - (length b - Z.to_nat i))%nat with 0%nat by lia.
    rewrite firstn_O. apply app_nil_r.
  - replace (Z.to_nat (j - Z.min i (Z.of_nat (length b) + Z.of_nat (length extra))))
      with 0%nat by lia.
    replace (Z.to_nat (j - Z.min i (Z.of_nat (length b)))) with 0%nat by lia.
    reflexivity.
Qed.

(** X4: bytes that follow the declared data range play no part: when the
    preamble is readable and the range lies inside the blob, appending any
    bytes leaves the username unchanged. *)
Theorem username_ignores_trailing_bytes (v_blob extra : bytes) :
  0x14 <= Z.of_nat (length v_blob) ->
  le_uint (slice v_blob 0x10 0x14) + le_uint (slice v_blob 0x0C 0x0E) * 2
  <= Z.of_nat (length v_blob) ->
  decode_username (v_blob ++ extra) = decode_username v_blob.
Proof.
  intros Hlen Hin.
  pose proof (le_uint_bounds (slice v_blob 0x0C 0x0E)) as Hn.
  pose proof (le_uint_bounds (slice v_blob 0x10 0x14)) as Ho.
  rewrite !decode_username_cases, length_app, Nat2Z.inj_add.
  rewrite !(proj2 (Z.ltb_ge _ 0x0E)) by lia.
  rewrite !(proj2 (Z.ltb_ge _ 0x14)) by lia.
  unfold username_of.
  rewrite (slice_app_inside v_blob extra 0x0C 0x0E) by lia.
  rewrite (slice_app_inside v_blob extra 0x10 0x14) by lia.
  now rewrite slice_app_inside by lia.
Qed.

Lemma username_ignores_trailing_bytes_witness :
  (0x14 <= Z.of_nat (length jane_v)
   /\ le_uint (slice jane_v 0x10 0x14) + le_uint (slice jane_v 0x0C 0x0E) * 2
      <= Z.of_nat (length jane_v))
  /\ decode_username (jane_v ++ [x41; x00; xff]) = decode_username jane_v.
Proof.
  split; [split; vm_compute; discriminate|].
  refine (username_ignores_trailing_bytes jane_v [x41; x00; xff] _ _);
    vm_compute; discriminate.
Defined.

Lemma decode_encode_bmp (s : str) :
  Forall bmp_scalar s -> decode_utf16le_replace (encode_utf16le s) = s.
Proof.
  induction 1 as [| c s [Hc Hs] _ IH]; [reflexivity|].
  cbn [encode_utf16le flat_map app decode_utf16le_replace].
  rewrite !byte_val_byte_of_Z.
  replace (c mod 256 + 256 * ((c / 256) mod 256)) with c by div_lia.
  rewrite Hs. cbn [negb]. f_equal. exact IH.
Qed.

(** X5: the account name may use any characters of the Basic Multilingual
    Plane, not only ASCII: when the preamble gives the character count and
    the offset of the UTF-16LE encoding of such a text [s], stored inside the
    blob, the username is [s] without its outer whitespace: [s] is some
    whitespace characters, then the username, then some whitespace
    characters, and the username neither starts nor ends with one. *)
Theorem decode_username_bmp (v_blob : bytes) (s : str) :
  0x14 <= Z.of_nat (length v_blob) ->
  le_uint (slice v_blob 0x0C 0x0E) = Z.of_nat (length s) ->
  firstn (2 * length s)
    (skipn (Z.to_nat (le_uint (slice v_blob 0x10 0x14))) v_blob)
  = encode_utf16le s ->
  Forall bmp_scalar s ->
  exists before after : str,
    s = before ++ decode_username v_blob ++ after
    /\ Forall (fun c => isspace c = true) before
    /\ Forall (fun c => isspace c = true) after
    /\ isspace (hd 0 (decode_username v_blob)) = false
    /\ isspace (last (decode_username v_blob) 0) = false.
Proof.
  intros Hlen Hn Hdata Hs.
  assert (E : decode_username v_blob = strip s).
  { rewrite decode_username_cases.
    rewrite (proj2 (Z.ltb_ge _ 0x0E)) by lia.
    rewrite (proj2 (Z.ltb_ge _ 0x14)) by lia.
    rewrite username_of_present, Hn.
    replace (Z.to_nat (Z.of_nat (length s) * 2)) with (2 * length s)%nat by lia.
    now rewrite Hdata, decode_encode_bmp. }
  rewrite E.
  destruct (strip_decompose s) as (p & q & Es & Hp & Hq).
  destruct (strip_trimmed s) as [Hh Hl].
  exists p, q. repeat split; assumption.
Qed.

Lemma decode_username_bmp_witness :
  (0x14 <= Z.of_nat (length spaced_anya_v)
   /\ Forall bmp_scalar [0x3000; 0x410; 0x43D; 0x44F; 0x20])
  /\ exists before after : str,
       [0x3000; 0x410; 0x43D; 0x44F; 0x20]
       = before ++ decode_username spaced_anya_v ++ after
       /\ Forall (fun c => isspace c = true) before
       /\ Forall (fun c => isspace c = true) after
       /\ isspace (hd 0 (decode_username spaced_anya_v)) = false
       /\ isspace (last (decode_username spaced_anya_v) 0) = false.
Proof.
  assert (Hs : Forall bmp_scalar [0x3000; 0x410; 0x43D; 0x44F; 0x20]).
  { repeat constructor; vm_compute; discriminate. }
  split; [split; [vm_compute; discriminate | exact Hs]|].
  refine (decode_username_bmp spaced_anya_v
            [0x3000; 0x410; 0x43D; 0x44F; 0x20] _ _ _ Hs).
  - vm_compute; discriminate.
  - reflexivity.
  - reflexivity.
Defined.

(** The two Cyrillic sample blobs decode to the bare name. *)
Example anya_is_decoded :
  decode_username anya_v = [0x410; 0x43D; 0x44F]
  /\ decode_username spaced_anya_v = [0x410; 0x43D; 0x44F].
Proof. split; reflexivity. Qed.

(** ** The [F] decoder: further properties *)

Lemma slice_middle (p x rest : bytes) :
  slice (p ++ x ++ rest) (Z.of_nat (length p))
    (Z.of_nat (length p) + Z.of_nat (length x)) = x.
Proof.
  rewrite slice_firstn_skipn by lia. rewrite !Nat2Z.id.
  rewrite skipn_app, skipn_all, Nat.sub_diag. cbn [skipn app].
  rewrite firstn_app, firstn_all, Nat.sub_diag, firstn_O. apply app_nil_r.
Qed.

(** X6: [decode_f_value] looks at bytes 8..15 and 24..27 only: the bytes
    before, between and after the two fields do not change its result. *)
Theorem f_value_reads_only_its_fields (head ts mid flags tail : bytes) :
  length head = 8%nat -> length ts = 8%nat -> length mid = 8%nat ->
  length flags = 4%nat ->
  decode_f_value (head ++ ts ++ mid ++ flags ++ tail)
  = decode_f_value (mk_f ts flags).
Proof.
  intros Hh Ht Hm Hf.
  assert (Hslices : forall p m t : bytes,
             length p = 8%nat -> length m = 8%nat ->
             Z.of_nat (length (p ++ ts ++ m ++ flags ++ t)) >= 28
             /\ slice (p ++ ts ++ m ++ flags ++ t) 8 16 = ts
             /\ slice (p ++ ts ++ m ++ flags ++ t) 24 28 = flags).
  { intros p m t Hp Hm'. split; [|split].
    - rewrite !length_app. lia.
    - replace 8 with (Z.of_nat (length p)) by lia.
      replace 16 with (Z.of_nat (length p) + Z.of_nat (length ts)) by lia.
      apply slice_middle.
    - replace (p ++ ts ++ m ++ flags ++ t)
        with ((p ++ ts ++ m) ++ flags ++ t) by now rewrite <- !app_assoc.
      replace 24 with (Z.of_nat (length (p ++ ts ++ m)))
        by (rewrite !length_app; lia).
      replace 28 with (Z.of_nat (length (p ++ ts ++ m))
                       + Z.of_nat (length flags))
        by (rewrite !length_app; lia).
      apply slice_middle. }
  destruct (Hslices head mid tail Hh Hm) as (L1 & T1 & F1).
  destruct (Hslices (repeat x00 8) (repeat x00 8) [] eq_refl eq_refl)
    as (L2 & T2 & F2).
  rewrite app_nil_r in L2, T2, F2. fold (mk_f ts flags) in L2, T2, F2.
  unfold decode_f_value. rewrite !decode_f_value_try_cases.
  rewrite !(proj2 (Z.ltb_ge _ 16)) by lia.
  rewrite !(proj2 (Z.ltb_ge _ 28)) by lia.
  cbv zeta. now rewrite T1, F1, T2, F2.
Qed.

Lemma f_value_reads_only_its_fields_witness :
  decode_f_value
    (repeat xff 8 ++ [x00; x6c; x01; xa7; x32; x60; xca; x01] ++ repeat xaa 8
     ++ [x00; x02; x00; x00] ++ repeat x55 40)
  = decode_f_value sample_f.
Proof.
  refine (f_value_reads_only_its_fields (repeat xff 8)
            [x00; x6c; x01; xa7; x32; x60; xca; x01] (repeat xaa 8)
            [x00; x02; x00; x00] (repeat x55 40) _ _ _ _); reflexivity.
Defined.

(** X7: for a blob holding both fields whose FILETIME is below the limit,
    the password policy is decided by bit 0x20 of the single byte at offset
    0x18: the three higher bytes of the flags word do not matter. *)
Theorem password_policy_from_one_byte (f_blob : bytes) :
  0x1C <= Z.of_nat (length f_blob) ->
  le_uint (slice f_blob 8 16) < FILETIME_LIMIT ->
  snd (decode_f_value f_blob)
  = if Z.testbit (byte_val (nth 24 f_blob x00)) 5
    then lit "No Password Required" else lit "Password Required".
Proof.
  intros Hlen Hts.
  unfold decode_f_value. rewrite decode_f_value_try_cases.
  rewrite (proj2 (Z.ltb_ge _ 16)) by lia. cbv zeta.
  rewrite (proj2 (Z.leb_gt _ _) Hts).
  rewrite (proj2 (Z.ltb_ge _ 28)) by lia. cbn [snd].
  rewrite password_policy_of_bit.
  change 28 with (24 + 4). rewrite slice_firstn_skipn by lia.
  change (Z.to_nat 24) with 24%nat. change (Z.to_nat 4) with 4%nat.
  destruct (skipn 24 f_blob) as [| x0 rest] eqn:E.
  { apply (f_equal (@length byte)) in E. rewrite length_skipn in E.
    cbn in E. lia. }
  assert (Hnth : nth 24 f_blob x00 = x0).
  { rewrite <- (firstn_skipn 24 f_blob), E.
    rewrite app_nth2 by (rewrite length_firstn; lia).
    rewrite length_firstn.
    now replace (24 - Nat.min 24 (length f_blob))%nat with 0%nat by lia. }
  rewrite Hnth. change (firstn 4 (x0 :: rest)) with (x0 :: firstn 3 rest).
  cbn [le_uint].
  pose proof (byte_val_bounds x0) as Hb.
  set (x := byte_val x0) in *. set (r := le_uint (firstn 3 rest)).
  rewrite <- (Z.mod_pow2_bits_low (x + 256 * r) 8 5) by lia.
  replace ((x + 256 * r) mod 2 ^ 8) with x; [reflexivity|].
  change (2 ^ 8) with 256. div_lia.
Qed.

Lemma password_policy_from_one_byte_witness :
  (0x1C <= Z.of_nat (length (mk_f (repeat x00 8) [x20; xff; xff; xff]))
   /\ le_uint (slice (mk_f (repeat x00 8) [x20; xff; xff; xff]) 8 16)
      < FILETIME_LIMIT)
  /\ snd (decode_f_value (mk_f (repeat x00 8) [x20; xff; xff; xff]))
     = lit "No Password Required".
Proof.
  split; [split; [vm_compute; discriminate | reflexivity]|].
  refine (password_policy_from_one_byte
            (mk_f (repeat x00 8) [x20; xff; xff; xff]) _ _).
  - vm_compute; discriminate.
  - reflexivity.
Defined.

Lemma days_in_month_le_31 (y m : Z) : 1 <= m <= 12 -> _days_in_month y m <= 31.
Proof.
  intros Hm. unfold _days_in_month.
  destruct ((m =? 2) && _is_leap y); [lia|].
  assert (Hcases : m = 1 \/ m = 2 \/ m = 3 \/ m = 4 \/ m = 5 \/ m = 6 \/ m = 7
                   \/ m = 8 \/ m = 9 \/ m = 10 \/ m = 11 \/ m = 12) by lia.
  repeat (destruct Hcases as [-> | Hcases]; [vm_compute; discriminate|]).
  subst m. vm_compute; discriminate.
Qed.

Lemma pad2_inj (a b : Z) :
  0 <= a < 100 -> 0 <= b < 100 -> pad2 a = pad2 b -> a = b.
Proof.
  unfold pad2. intros Ha Hb E.
  pose proof (f_equal (fun l => nth 0 l 0) E) as E1.
  pose proof (f_equal (fun l => nth 1 l 0) E) as E2.
  cbn [nth] in E1, E2. unfold digit in E1, E2. div_lia.
Qed.

Lemma pad4_inj (a b : Z) :
  0 <= a < 10000 -> 0 <= b < 10000 -> pad4 a = pad4 b -> a = b.
Proof.
  unfold pad4. intros Ha Hb E.
  pose proof (f_equal (fun l => nth 0 l 0) E) as E1.
  pose proof (f_equal (fun l => nth 1 l 0) E) as E2.
  pose proof (f_equal (fun l => nth 2 l 0) E) as E3.
  pose proof (f_equal (fun l => nth 3 l 0) E) as E4.
  cbn [nth] in E1, E2, E3, E4. unfold digit in E1, E2, E3, E4. div_lia.
Qed.

Lemma app_inj_length (a b c d : str) :
  length a = length b -> a ++ c = b ++ d -> a = b /\ c = d.
Proof.
  revert b. induction a as [| x a IH]; intros [| y b] Hl E;
    try discriminate; [now split|].
  injection E as -> E. injection Hl as Hl.
  destruct (IH b Hl E) as [-> ->]. now split.
Qed.

(** The rendering of a well-formed calendar time tells all its fields but
    the microseconds. *)
Lemma strftime_inj (dt1 dt2 : datetime) :
  valid_datetime dt1 -> valid_datetime dt2 ->
  strftime dt1 = strftime dt2 ->
  year dt1 = year dt2 /\ month dt1 = month dt2 /\ day dt1 = day dt2
  /\ hour dt1 = hour dt2 /\ minute dt1 = minute dt2
  /\ second dt1 = second dt2.
Proof.
  intros (Hy1 & Hm1 & Hd1 & Hh1 & Hmi1 & Hs1 & _)
         (Hy2 & Hm2 & Hd2 & Hh2 & Hmi2 & Hs2 & _) E.
  pose proof (days_in_month_le_31 (year dt1) (month dt1) Hm1).
  pose proof (days_in_month_le_31 (year dt2) (month dt2) Hm2).
  unfold strftime in E.
  pose proof app_inj_length as Hsplit.
  apply Hsplit in E as [Ey E]; [|reflexivity].
  apply Hsplit in E as [_ E]; [|reflexivity].
  apply Hsplit in E as [Em E]; [|reflexivity].
  apply Hsplit in E as [_ E]; [|reflexivity].
  apply Hsplit in E as [Ed E]; [|reflexivity].
  apply Hsplit in E as [_ E]; [|reflexivity].
  apply Hsplit in E as [Eh E]; [|reflexivity].
  apply Hsplit in E as [_ E]; [|reflexivity].
  apply Hsplit in E as [Emi E]; [|reflexivity].
  apply Hsplit in E as [_ Es]; [|reflexivity].
  repeat split.
  - apply pad4_inj; [lia | lia | exact Ey].
  - apply pad2_inj; [lia | lia | exact Em].
  - apply pad2_inj; [lia | lia | exact Ed].
  - apply pad2_inj; [lia | lia | exact Eh].
  - apply pad2_inj; [lia | lia | exact Emi].
  - apply pad2_inj; [lia | lia | exact Es].
Qed.

Lemma microsecond_datetime_of_filetime (timestamp : Z) :
  microsecond (datetime_of_filetime timestamp) = (timestamp / 10) mod 1000000.
Proof.
  unfold datetime_of_filetime. cbv zeta.
  now destruct (_ord2ymd _) as [[y m] d].
Qed.

Lemma strftime_same_second (t1 t2 : Z) :
  t1 / 10000000 = t2 / 10000000 ->
  strftime (datetime_of_filetime t1) = strftime (datetime_of_filetime t2).
Proof.
  intros E.
  assert (E' : t1 / 10 / 1000000 = t2 / 10 / 1000000)
    by (rewrite !Z.div_div by lia; exact E).
  unfold datetime_of_filetime. cbv zeta. rewrite E'.
  now destruct (_ord2ymd _) as [[y m] d].
Qed.

(** The last-login text of a blob whose FILETIME converts. *)
Lemma last_login_is_strftime (f_blob : bytes) :
  0x1C <= Z.of_nat (length f_blob) ->
  le_uint (slice f_blob 8 16) <> 0 ->
  le_uint (slice f_blob 8 16) < FILETIME_LIMIT ->
  fst (decode_f_value f_blob)
  = strftime (datetime_of_filetime (le_uint (slice f_blob 8 16))).
Proof.
  intros Hlen Hnz Hlt.
  unfold decode_f_value. rewrite decode_f_value_try_cases.
  rewrite (proj2 (Z.ltb_ge _ 16)) by lia. cbv zeta.
  rewrite (proj2 (Z.leb_gt _ _) Hlt).
  rewrite (proj2 (Z.ltb_ge _ 28)) by lia. cbn [fst].
  unfold last_login_text. now rewrite (proj2 (Z.eqb_neq _ _) Hnz).
Qed.

(** X8: the last-login text has the resolution of one second and loses
    nothing else: two blobs with non-zero FILETIMEs below the limit print the
    same text exactly when the two values fall in the same second. *)
Theorem last_login_resolution_is_one_second (f1 f2 : bytes) :
  0x1C <= Z.of_nat (length f1) -> 0x1C <= Z.of_nat (length f2) ->
  let t1 := le_uint (slice f1 8 16) in
  let t2 := le_uint (slice f2 8 16) in
  t1 <> 0 -> t2 <> 0 -> t1 < FILETIME_LIMIT -> t2 < FILETIME_LIMIT ->
  (fst (decode_f_value f1) = fst (decode_f_value f2)
   <-> t1 / 10000000 = t2 / 10000000).
Proof.
  intros L1 L2 t1 t2 N1 N2 H1 H2.
  rewrite (last_login_is_strftime f1 L1 N1 H1).
  rewrite (last_login_is_strftime f2 L2 N2 H2).
  fold t1. fold t2.
  pose proof (le_uint_bounds (slice f1 8 16)) as B1. fold t1 in B1.
  pose proof (le_uint_bounds (slice f2 8 16)) as B2. fold t2 in B2.
  clearbody t1 t2.
  split; [|apply strftime_same_second].
  intros E.
  destruct (datetime_of_filetime_spec t1) as (V1 & _ & U1); [lia|].
  destruct (datetime_of_filetime_spec t2) as (V2 & _ & U2); [lia|].
  destruct (strftime_inj _ _ V1 V2 E) as (Ey & Em & Ed & Eh & Emi & Es).
  pose proof (microsecond_datetime_of_filetime t1) as M1.
  pose proof (microsecond_datetime_of_filetime t2) as M2.
  assert (K : microseconds_since_year1 (datetime_of_filetime t1)
              - microsecond (datetime_of_filetime t1)
              = microseconds_since_year1 (datetime_of_filetime t2)
                - microsecond (datetime_of_filetime t2)).
  { unfold microseconds_since_year1, toordinal.
    rewrite Ey, Em, Ed, Eh, Emi, Es. lia. }
  rewrite U1, U2, M1, M2 in K.
  assert (t1 / 10 / 1000000 = t2 / 10 / 1000000) as E'.
  { clear - K. revert K.
    generalize (microseconds_since_year1 epoch_1601) (t1 / 10) (t2 / 10).
    intros e u1 u2 K. div_lia. }
  rewrite !Z.div_div in E' by lia. exact E'.
Qed.

Lemma last_login_resolution_is_one_second_witness :
  (0x1C <= Z.of_nat (length sample_f)
   /\ le_uint (slice sample_f 8 16) <> 0
   /\ le_uint (slice sample_f 8 16) < FILETIME_LIMIT)
  /\ (fst (decode_f_value sample_f)
      = fst (decode_f_value
               (mk_f [x7f; x02; x9a; xa7; x32; x60; xca; x01]
                     [x00; x00; x00; x00]))
      <-> 129021310000000000 / 10000000 = 129021310009999999 / 10000000).
Proof.
  split; [split; [|split]; vm_compute; first [reflexivity | discriminate]|].
  refine (last_login_resolution_is_one_second sample_f
            (mk_f [x7f; x02; x9a; xa7; x32; x60; xca; x01] [x00; x00; x00; x00])
            _ _ _ _ _ _); vm_compute; first [reflexivity | discriminate].
Defined.

(** X9: "Never" is the last-login text exactly when the blob holds both
    fields and its FILETIME is zero; a FILETIME within the first second after
    1601-01-01 is a date, not "Never". *)
Theorem never_iff_zero_filetime (f_blob : bytes) :
  fst (decode_f_value f_blob) = lit "Never"
  <-> 0x1C <= Z.of_nat (length f_blob) /\ le_uint (slice f_blob 8 16) = 0.
Proof.
  unfold decode_f_value. rewrite decode_f_value_try_cases.
  destruct (Z.ltb_spec (Z.of_nat (length f_blob)) 16) as [Hs|Hl].
  { split; [discriminate | lia]. }
  cbv zeta.
  destruct (Z.leb_spec FILETIME_LIMIT (le_uint (slice f_blob 8 16)))
    as [Hge|Hlt].
  { split; [discriminate|]. unfold FILETIME_LIMIT, _MAXORDINAL in Hge. lia. }
  destruct (Z.ltb_spec (Z.of_nat (length f_blob)) 28) as [Hs'|Hl'].
  { split; [discriminate | lia]. }
  cbn [fst]. unfold last_login_text.
  destruct (Z.eqb_spec (le_uint (slice f_blob 8 16)) 0) as [Hz|Hnz].
  - split; [split; [lia | exact Hz] | reflexivity].
  - split; [|tauto]. intros E.
    apply (f_equal (@length Z)) in E. discriminate E.
Qed.

(** ** The loop over subkeys: further properties *)

Lemma headers_of_block (sk : subkey) :
  length (filter is_header (parse_subkey [] sk))
  = if is_account sk then 1%nat else 0%nat.
Proof.
  unfold is_account.
  destruct (str_eqb (name sk) (lit "Names")) eqn:E; cbn [negb].
  - apply str_eqb_eq in E. now rewrite (parse_subkey_names sk E).
  - apply str_eqb_neq in E. rewrite (parse_subkey_account sk E).
    destruct (value sk (lit "V")); destruct (value sk (lit "F")); reflexivity.
Qed.

(** X10: the output holds exactly one "User RID" line, the only kind of
    line that starts with a newline, per enumerated subkey not named
    "Names", and none when the hive or its Users key cannot be opened. *)
Theorem one_header_per_account (h : hive) :
  length (filter is_header (parse_sam_hive h))
  = length (filter is_account (subkeys_of h)).
Proof.
  destruct h as [e | e | subkeys]; [reflexivity | reflexivity |].
  rewrite parse_sam_hive_blocks. cbn [subkeys_of].
  induction subkeys as [| sk subkeys IH]; [reflexivity|].
  cbn [flat_map filter]. rewrite filter_app, length_app, IH, headers_of_block.
  destruct (is_account sk); reflexivity.
Qed.

(** X11: the output follows the enumeration: the output for two
    enumerations one after the other is the two outputs one after the other,
    and dropping every subkey named "Names" changes nothing.  What one
    subkey prints does not depend on the subkeys around it. *)
Theorem output_follows_enumeration (first second : list subkey) :
  parse_sam_hive (UsersKey (first ++ second))
  = parse_sam_hive (UsersKey first) ++ parse_sam_hive (UsersKey second)
  /\ parse_sam_hive (UsersKey (filter is_account first))
     = parse_sam_hive (UsersKey first).
Proof.
  rewrite !parse_sam_hive_blocks. split; [apply flat_map_app|].
  induction first as [| sk l IH]; [reflexivity|].
  cbn [filter flat_map]. unfold is_account at 1.
  destruct (str_eqb (name sk) (lit "Names")) eqn:E; cbn [negb].
  - apply str_eqb_eq in E. now rewrite (parse_subkey_names sk E).
  - cbn [flat_map]. now rewrite IH.
Qed.

(** X12: every enumerated subkey not named "Names" contributes at least
    two and at most four printed strings, and nothing else is printed. *)
Theorem output_size_bounded (subkeys : list subkey) :
  (2 * length (filter is_account subkeys)
   <= length (parse_sam_hive (UsersKey subkeys))
   <= 4 * length (filter is_account subkeys))%nat.
Proof.
  rewrite parse_sam_hive_blocks.
  induction subkeys as [| sk subkeys IH]; [cbn; lia|].
  cbn [flat_map filter]. rewrite length_app.
  assert (Hblock : (length (parse_subkey [] sk)
                    = if is_account sk
                      then match value sk (lit "V"), value sk (lit "F") with
                           | Ok _, Ok _ => 4
                           | _, _ => 2
                           end
                      else 0)%nat).
  { unfold is_account.
    destruct (str_eqb (name sk) (lit "Names")) eqn:E; cbn [negb].
    - apply str_eqb_eq in E. now rewrite (parse_subkey_names sk E).
    - apply str_eqb_neq in E. rewrite (parse_subkey_account sk E).
      destruct (value sk (lit "V")); destruct (value sk (lit "F"));
        reflexivity. }
  rewrite Hblock.
  destruct (is_account sk); cbn [length]; [|lia].
  destruct (value sk (lit "V")); destruct (value sk (lit "F")); lia.
Qed.

(** ** Edge behaviour of the two decoders *)

Lemma decode_utf16le_odd (b : bytes) :
  Nat.odd (length b) = true ->
  exists p, decode_utf16le_replace b = p ++ [REPLACEMENT].
Proof.
  remember (length b) as k eqn:Hk.
  revert b Hk. induction k as [k IH] using (well_founded_induction lt_wf).
  intros b -> Hodd. destruct b as [| lo [| hi rest]];
    [discriminate | now exists [] |].
  assert (Hrest : exists p, decode_utf16le_replace rest = p ++ [REPLACEMENT]).
  { apply (IH (length rest)); [cbn [length]; lia | reflexivity | exact Hodd]. }
  destruct Hrest as [p Hp].
  cbn [decode_utf16le_replace]. cbv zeta.
  destruct (negb (is_surrogate _));
    [rewrite Hp, app_comm_cons; eexists; reflexivity|].
  destruct (negb (is_high_surrogate _));
    [rewrite Hp, app_comm_cons; eexists; reflexivity|].
  destruct rest as [| lo2 [| hi2 rest']]; [discriminate | now exists [] |].
  destruct (is_low_surrogate _);
    [|rewrite Hp, app_comm_cons; eexists; reflexivity].
  destruct (IH (length rest') ltac:(cbn [length]; lia) rest' eq_refl Hodd)
    as [p' Hp'].
  rewrite Hp', app_comm_cons. eexists; reflexivity.
Qed.

Lemma strip_keeps_last (p : str) (c : Z) :
  isspace c = false -> exists q, strip (p ++ [c]) = q ++ [c].
Proof.
  intros Hc.
  assert (Hl : exists q, lstrip (p ++ [c]) = q ++ [c]).
  { induction p as [| x p [q Hq]].
    - exists []. cbn. now rewrite Hc.
    - cbn [app lstrip]. destruct (isspace x); [now exists q|].
      now exists (x :: p). }
  destruct Hl as [q Hq]. exists q. unfold strip, rstrip.
  rewrite Hq, rev_app_distr. cbn [rev app lstrip]. rewrite Hc.
  cbn [rev]. now rewrite rev_involutive.
Qed.

(** X13: a name cut in the middle of a character is marked: when the
    preamble is readable, the declared range runs past the end of the blob
    and an odd number of bytes is left from the offset on, the username ends
    with U+FFFD. *)
Theorem truncated_unit_gives_replacement (v_blob : bytes) :
  0x14 <= Z.of_nat (length v_blob) ->
  let n := le_uint (slice v_blob 0x0C 0x0E) in
  let o := le_uint (slice v_blob 0x10 0x14) in
  o < Z.of_nat (length v_blob) < o + n * 2 ->
  Z.odd (Z.of_nat (length v_blob) - o) = true ->
  last (decode_username v_blob) 0 = 0xFFFD.
Proof.
  intros Hlen n o Hrange Hodd.
  pose proof (le_uint_bounds (slice v_blob 0x0C 0x0E)) as Hn. fold n in Hn.
  pose proof (le_uint_bounds (slice v_blob 0x10 0x14)) as Ho. fold o in Ho.
  rewrite decode_username_cases.
  rewrite (proj2 (Z.ltb_ge _ 0x0E)) by lia.
  rewrite (proj2 (Z.ltb_ge _ 0x14)) by lia.
  rewrite username_of_present. fold n. fold o.
  rewrite firstn_all2 by (rewrite length_skipn; lia).
  destruct (decode_utf16le_odd (skipn (Z.to_nat o) v_blob)) as [p Hp].
  { rewrite length_skipn.
    replace (length v_blob - Z.to_nat o)%nat
      with (Z.to_nat (Z.of_nat (length v_blob) - o)) by lia.
    apply Nat.odd_spec. apply Z.odd_spec in Hodd. destruct Hodd as [m Hm].
    exists (Z.to_nat m). lia. }
  rewrite Hp.
  destruct (strip_keeps_last p REPLACEMENT eq_refl) as [q ->].
  apply last_last.
Qed.

Lemma truncated_unit_gives_replacement_witness :
  (0x14 <= Z.of_nat (length (firstn 35 jane_v))
   /\ Z.odd (Z.of_nat (length (firstn 35 jane_v)) - 0x20) = true)
  /\ last (decode_username (firstn 35 jane_v)) 0 = 0xFFFD.
Proof.
  split; [split; [vm_compute; discriminate | reflexivity]|].
  refine (truncated_unit_gives_replacement (firstn 35 jane_v) _ _ _).
  - vm_compute; discriminate.
  - split; reflexivity.
  - reflexivity.
Defined.

(** X14: "Unknown" marks a failed decode and nothing else: the last-login
    text is "Unknown" exactly when the blob is shorter than 0x1C bytes or its
    FILETIME is at or past the limit, that is, exactly when the body of
    [decode_f_value] raised. *)
Theorem unknown_iff_decode_failed (f_blob : bytes) :
  (fst (decode_f_value f_blob) = lit "Unknown"
   <-> Z.of_nat (length f_blob) < 0x1C
       \/ FILETIME_LIMIT <= le_uint (slice f_blob 8 16))
  /\ (fst (decode_f_value f_blob) = lit "Unknown"
      <-> exists e, decode_f_value_try f_blob = Raise e).
Proof.
  unfold decode_f_value. rewrite decode_f_value_try_cases.
  destruct (Z.ltb_spec (Z.of_nat (length f_blob)) 16) as [Hs|Hl].
  { split; (split; [intros _ | reflexivity]); [lia | now eexists]. }
  cbv zeta.
  destruct (Z.leb_spec FILETIME_LIMIT (le_uint (slice f_blob 8 16)))
    as [Hge|Hlt].
  { split; (split; [intros _ | reflexivity]); [now right | now eexists]. }
  destruct (Z.ltb_spec (Z.of_nat (length f_blob)) 28) as [Hs'|Hl'].
  { split; (split; [intros _ | reflexivity]); [lia | now eexists]. }
  cbn [fst].
  assert (Hne : last_login_text (le_uint (slice f_blob 8 16)) <> lit "Unknown").
  { unfold last_login_text. destruct (_ =? 0); [discriminate|].
    intros E. apply (f_equal (@length Z)) in E. discriminate E. }
  split; (split; [intros E; now destruct Hne|]).
  - lia.
  - intros [e He]. discriminate He.
Qed.
